(* ===== verification/_CoqProject ===== *)
-Q . S2P
Prelude.v
PyStr.v
PyDict.v
Volume.v
Config.v
Receiver.v
Marantz.v
Platform.v
