(* ===== verification/Prelude.v ===== *)
(** * A verification development of the Marantz RS-232 media-player adapter

    The repository is one Home Assistant platform,
    [src/custom_components/marantzusb/media_player.py].  Its parts:

    - the configuration schema [PLATFORM_SCHEMA] (lines 22-45), which
      validates the YAML entry of the platform and fills in defaults;
    - [setup_platform] (lines 48-59), which builds the vendor client from the
      serial port and the entity from the validated configuration, and asks
      the host to run [update] before adding the entity;
    - the volume arithmetic [calc_volume] / [calc_db] of the class (lines
      82-98), between the receiver's decibels and the host's fraction;
    - the entity class [Marantz] (lines 62-204): [__init__] builds two
      reverse look-up tables from the configured source and sound-mode
      dicts; [update] polls the receiver five times and overwrites the
      cached state; each command method sends one write code; the
      properties read the cache.

    The entity talks to the vendor library [marantz_receiver] (not in the
    repository) through [main_power], [main_mute], [main_volume],
    [main_source] and [main_sound_mode], each called as [m(':', code)].
    That library is the interface [Receiver.Receiver], a type class: any
    state type with a function answering a call with a Python value or an
    exception.  Every theorem about the entity holds for every instance; the
    instance [Receiver.Script], which answers from a list, is used only by
    the concrete witnesses.

    Files, in dependency order, and what they model:
    - [Prelude] (this file): Python values ([pyval]), exceptions ([exn]),
      results, and the state-and-exception monad [PyM] with its notation
      ([py_scope]).  When a method raises, the assignments it already made
      stay, as in Python.  Also Python's [==], [!= None] and int
      subtraction on replies, the hint databases [pyrun], and [py_simpl].
    - [PyStr]: [str] of an int and the write codes ['0' + ...]
      ([py_str_int], [zero_prefix], [vol_calc]), their decoding, and the
      lexicographic string order used by [sorted] ([StrOrder], [StrSort]).
    - [PyDict]: a Python dict as an association list in insertion order
      ([dict_get], [dict_setitem]).  It is refined by stdpp's [gmap]
      ([dict_to_map]).  Also the comprehensions of [__init__]
      ([dict_reverse]) and [sorted(d.keys())] ([sorted_keys]).
    - [Volume]: Python's [round] ([py_round], half to even), [calc_volume]
      and [calc_db] as functions of the two bounds.
    - [Config]: the validators [cv.string], [int] and
      [{cv.string: cv.string}], and the schema ([PLATFORM_SCHEMA], [config]).
    - [Receiver]: the vendor interface and its calls.  The [world] is the
      entity, the receiver state and a log of calls (ghost state for the
      order of calls).  [invoke] makes one call; [answers] says a receiver
      answers a sequence of calls.
    - [Marantz]: the attributes ([entity]), [__init__], [update], the eight
      command methods, the properties, and the host's dispatch
      [run_command].  [sends m w c] says that method [m], run on world [w],
      makes exactly the call [c] and leaves the entity as it was.  The
      inductive [reachable] gives the worlds the host can produce: a fresh
      entity, then any sequence of [update] calls (returning or raising)
      and commands.
    - [Platform]: [SUPPORT_MARANTZ], [supported_features] and
      [setup_platform].

    What the theorems show:
    - [update], for every receiver and every reply.  Power ['1'] is OFF;
      mute ['1'] is not muted; an absent volume keeps the cache; an int
      volume is converted.  A [str] volume raises [TypeError]; equal bounds
      raise [ZeroDivisionError].  Unknown source codes give [None].  The log
      is always a prefix of the five queries in source order.  On an
      exception the refresh is partial, not atomic.  The configuration
      attributes never change.
    - The commands: each makes exactly its one write call, with the code of
      the specification's table, and leaves the cache untouched.  The
      statements are about the methods themselves ([select_source],
      [select_sound_mode], [set_volume_level]) run on a world.  In every
      reachable world: selecting a listed source sends a code that
      [update] reads back as the same name; an unlisted name sends [None];
      with duplicate display names the last code wins; a listed sound mode
      sends ['0'] + its key.  [set_volume_level] sends a decodable code in
      the configured range.
    - The invariant: in every reachable world the reverse tables are those
      [__init__] built (rule induction on [reachable]), so the two lists
      always hold exactly the configured names.
    - The properties: [source_list] is strictly sorted, holds exactly the
      display names, and does not depend on configuration order.
      [sound_mode] raises [AttributeError] until an [update] completes.
      After [update], a decibel reply inside the configured bounds gives a
      [volume_level] in [0,1].
    - Volume: round trips in both directions (exact for decibels, within
      one rounding step for fractions), bounds, monotonicity, endpoints,
      [calc_db] at exact ties (half to even), and what an inverted
      configuration ([min > max]) does.
    - Write codes: decoding round trip; a negative decibel value gives
      ['0-' + digits].
    - Configuration: any data with a serial port and none of the other keys
      gets the defaults; a missing [serial_port] error; any two bounds are
      accepted.
    - Setup: an added entity carries the configuration and has made one
      [update]; a client failing on its first query adds nothing.

    Modelling choices.  Python floats are exact rationals [Q], so
    [abs(a)/abs(b)] and [round] are computed exactly.  CPython rounds the
    quotient to a double instead; for receiver ranges (|range| < 2^52) the
    difference is far below the rounding step of [round], except exactly at
    ties.  Strings are [String.string]; non-ASCII text is UTF-8 bytes, whose
    byte order is code-point order, so [sorted] agrees.  No function needs
    fuel: every definition is structural and executable, and the witnesses
    run them with [reflexivity] or [vm_compute].

    Not modelled: the vendor library's framing and device behaviour (only
    its interface); the host framework (scheduler, registry, logging,
    its own schema keys) beyond [update_before_add]; the order of
    voluptuous' error list (only its content).

    Plan for further work: a device model refining the receiver interface,
    to state end-to-end properties of command sequences (turn on, then
    update); [setup_platform] composed with [PLATFORM_SCHEMA]; the order of
    voluptuous' errors; float rounding of [calc_volume] at the ties. *)

From Stdlib Require Import ZArith String List.
Import ListNotations.

(** ** Python values crossing the vendor-library boundary *)

Inductive pyval : Type :=
| PyNone
| PyBool (b : bool)
| PyInt (z : Z)
| PyStr (s : string).

(** The exceptions the modelled code can raise or propagate. *)
Inductive exn : Type :=
| ZeroDivisionError
| TypeError
| AttributeError (attr : string)
| ReceiverError (msg : string).

Inductive result (A : Type) : Type :=
| Ok (a : A)
| Raise (e : exn).
Arguments Ok {A} a.
Arguments Raise {A} e.

Definition result_map {A B} (f : A -> B) (r : result A) : result B :=
  match r with Ok a => Ok (f a) | Raise e => Raise e end.

(** ** The state-and-exception monad of the methods

    A method runs on a state [S]; when it raises, the mutations it already
    made stay, as for a Python method that assigns attributes and then
    raises. *)
Definition PyM (S A : Type) : Type := S -> result A * S.

Definition ret {S A} (a : A) : PyM S A := fun s => (Ok a, s).

Definition bind {S A B} (m : PyM S A) (k : A -> PyM S B) : PyM S B :=
  fun s => match m s with
           | (Ok a, s') => k a s'
           | (Raise e, s') => (Raise e, s')
           end.

Definition raise {S A} (e : exn) : PyM S A := fun s => (Raise e, s).

Definition gets {S A} (f : S -> A) : PyM S A := fun s => (Ok (f s), s).

Definition modify {S} (f : S -> S) : PyM S unit := fun s => (Ok tt, f s).

Definition lift {S A} (r : result A) : PyM S A := fun s => (r, s).

Declare Scope py_scope.
Delimit Scope py_scope with py.
Notation "x <- m ;; k" := (bind m (fun x => k))
  (at level 100, m at next level, k at level 200, right associativity) : py_scope.
Notation "m ;; k" := (bind m (fun _ => k))
  (at level 100, k at level 200, right associativity) : py_scope.

(** ** Python semantics of the operators the adapter applies to replies *)

(** [v == s] for a string literal [s]: only a [str] with the same
    characters is equal ([1 == '1'] is [False]). *)
Definition py_eq_str (v : pyval) (s : string) : bool :=
  match v with PyStr s' => String.eqb s' s | _ => false end.

(** [v != None]. *)
Definition py_not_none (v : pyval) : bool :=
  match v with PyNone => false | _ => true end.

(** [a - v] for an int [a]: [bool] is a subclass of [int]; [str] and
    [None] raise [TypeError]. *)
Definition py_sub_int (a : Z) (v : pyval) : result Z :=
  match v with
  | PyInt z => Ok (a - z)%Z
  | PyBool b => Ok (a - if b then 1 else 0)%Z
  | PyNone | PyStr _ => Raise TypeError
  end.

(** A Python value from an optional string ([None] when absent). *)
Definition py_of_option (o : option string) : pyval :=
  match o with Some s => PyStr s | None => PyNone end.

(** ** Running monadic code *)

Create HintDb pyrun.
Create Rewrite HintDb pyrun.

Lemma bind_ret {S A B} (a : A) (k : A -> PyM S B) s :
  bind (ret a) k s = k a s.
Proof. reflexivity. Qed.

Lemma bind_raise {S A B} e (k : A -> PyM S B) s :
  bind (raise e) k s = (Raise e, s).
Proof. reflexivity. Qed.

Lemma bind_assoc {S A B C} (m : PyM S A) (k : A -> PyM S B) (h : B -> PyM S C) s :
  bind (bind m k) h s = bind m (fun a => bind (k a) h) s.
Proof. unfold bind. destruct (m s) as [[a|e] s']; reflexivity. Qed.

Lemma bind_ok {S A B} (m : PyM S A) (k : A -> PyM S B) s a s' :
  m s = (Ok a, s') -> bind m k s = k a s'.
Proof. unfold bind. intros ->. reflexivity. Qed.

Lemma bind_err {S A B} (m : PyM S A) (k : A -> PyM S B) s e s' :
  m s = (Raise e, s') -> bind m k s = (Raise e, s').
Proof. unfold bind. intros ->. reflexivity. Qed.

#[export] Hint Rewrite @bind_ret @bind_raise @bind_assoc : pyrun.

(** Unfold the monad's primitives and reduce. *)
Ltac py_simpl :=
  repeat (autorewrite with pyrun in *; cbn [bind ret raise gets modify lift] in *).

(** ** Generic lemmas on the Python operators *)

Lemma py_eq_str_true v s : py_eq_str v s = true <-> v = PyStr s.
Proof.
  destruct v; simpl; split; intro H; try discriminate.
  - apply String.eqb_eq in H. now subst.
  - injection H as ->. apply String.eqb_refl.
Qed.

Lemma py_not_none_false v : py_not_none v = false <-> v = PyNone.
Proof. destruct v; simpl; split; congruence. Qed.

Lemma py_sub_int_int a z : py_sub_int a (PyInt z) = Ok (a - z)%Z.
Proof. reflexivity. Qed.

#[export] Hint Rewrite py_sub_int_int : pyrun.
#[export] Hint Resolve bind_ok bind_err : pyrun.
