(* ===== verification/PyStr.v ===== *)
(** * Python strings: [str(int)], the ['0'] prefix, and string order

    [set_volume_level] (line 164) sends ['0' + str(self.calc_db(volume))];
    [__init__] (line 76) stores ["0{}".format(key)] for every sound-mode key.
    Both put the character ['0'] in front of a string ([zero_prefix]).
    [str] of a Python int is its decimal notation, with a leading ['-'] when
    negative and no leading zeros; it is the Standard Library's
    [NilZero.string_of_int] of [Z.to_int], whose parser gives the decoding.
    [sorted] on a list of [str] uses Python's [<] on strings: lexicographic
    by code point, here [String.compare]; the module [StrOrder] packs it as
    a total boolean order for the Standard Library's merge sort. *)

From Stdlib Require Import ZArith String Ascii List Lia.
From Stdlib Require Import DecimalString DecimalZ DecimalPos Orders Mergesort Sorted.
From S2P Require Import Prelude.
Import ListNotations.
Local Open Scope string_scope.

Module PyStr.

(** [str(z)] for a Python int [z]. *)
Definition py_str_int (z : Z) : string := NilZero.string_of_int (Z.to_int z).

(** The inverse on well-formed decimal notation, as [int(s)] restricted to
    what [str] prints. *)
Definition py_int_of_str (s : string) : option Z :=
  option_map Z.of_int (NilZero.int_of_string s).

(** ['0' + s] and ["0{}".format(s)]. *)
Definition zero_prefix (s : string) : string := String "0" s.

(** The write code of [set_volume_level] for a decibel value [db]:
    [vol_calc = '0' + str(db)]. *)
Definition vol_calc (db : Z) : string := zero_prefix (py_str_int db).

(** How a reader of the write code recovers the decibel value: drop the
    leading ['0'] and read the rest as an int. *)
Definition decode_vol_calc (s : string) : option Z :=
  match s with
  | String c rest => if Ascii.eqb c "0" then py_int_of_str rest else None
  | EmptyString => None
  end.

(** ** Lexicographic order of strings *)

Definition str_lt (s1 s2 : string) : Prop := String.compare s1 s2 = Lt.

Lemma ascii_compare_trans a b c :
  Ascii.compare a b = Lt -> Ascii.compare b c = Lt -> Ascii.compare a c = Lt.
Proof.
  unfold Ascii.compare. rewrite !N.compare_lt_iff. lia.
Qed.

Lemma ascii_compare_refl a : Ascii.compare a a = Eq.
Proof. unfold Ascii.compare. apply N.compare_refl. Qed.

Lemma string_compare_refl s : String.compare s s = Eq.
Proof. induction s as [|c s IH]; simpl; [reflexivity|]. now rewrite ascii_compare_refl. Qed.

Lemma string_compare_trans s1 s2 s3 :
  str_lt s1 s2 -> str_lt s2 s3 -> str_lt s1 s3.
Proof.
  unfold str_lt. revert s2 s3.
  induction s1 as [|c1 s1 IH]; intros [|c2 s2] [|c3 s3]; simpl; try congruence.
  destruct (Ascii.compare c1 c2) eqn:E12, (Ascii.compare c2 c3) eqn:E23;
    try congruence; intros H12 H23.
  - apply Ascii.compare_eq_iff in E12, E23. subst. rewrite ascii_compare_refl. eauto.
  - apply Ascii.compare_eq_iff in E12. subst. now rewrite E23.
  - apply Ascii.compare_eq_iff in E23. subst. now rewrite E12.
  - now rewrite (ascii_compare_trans _ _ _ E12 E23).
Qed.

Lemma str_lt_irrefl s : ~ str_lt s s.
Proof. unfold str_lt. now rewrite string_compare_refl. Qed.

Lemma str_lt_total s1 s2 : str_lt s1 s2 \/ s1 = s2 \/ str_lt s2 s1.
Proof.
  unfold str_lt. rewrite (String.compare_antisym s2 s1).
  destruct (String.compare s1 s2) eqn:E; simpl; auto.
  right; left. now apply String.compare_eq_iff.
Qed.

Lemma str_leb_trans s1 s2 s3 :
  String.leb s1 s2 = true -> String.leb s2 s3 = true -> String.leb s1 s3 = true.
Proof.
  unfold String.leb.
  destruct (String.compare s1 s2) eqn:E12; try discriminate;
  destruct (String.compare s2 s3) eqn:E23; try discriminate; intros _ _;
  repeat match goal with
  | H : String.compare _ _ = Eq |- _ => apply String.compare_eq_iff in H; subst
  end;
  rewrite ?E12, ?E23, ?string_compare_refl; auto.
  now rewrite (string_compare_trans s1 s2 s3 E12 E23).
Qed.

(** ** The decimal notation and the write code *)

Lemma to_int_nonnil z : Z.to_int z <> Decimal.Pos Decimal.Nil /\ Z.to_int z <> Decimal.Neg Decimal.Nil.
Proof.
  destruct z as [|p|p]; simpl; split; try discriminate;
    intros [=H]; exact (Unsigned.to_uint_nonnil p H).
Qed.

(** [str] of an int is read back by [int]. *)
Lemma py_str_int_roundtrip z : py_int_of_str (py_str_int z) = Some z.
Proof.
  destruct (to_int_nonnil z) as [H1 H2].
  unfold py_int_of_str, py_str_int. rewrite (NilZero.isi _ H1 H2). simpl.
  now rewrite DecimalZ.of_to.
Qed.

(** The write code of [set_volume_level] determines the decibel value. *)
Lemma vol_calc_roundtrip db : decode_vol_calc (vol_calc db) = Some db.
Proof. exact (py_str_int_roundtrip db). Qed.

Corollary vol_calc_inj db db' : vol_calc db = vol_calc db' -> db = db'.
Proof.
  intros H. apply (f_equal decode_vol_calc) in H.
  unfold decode_vol_calc, vol_calc, zero_prefix in H. cbn [Ascii.eqb Bool.eqb] in H.
  rewrite !py_str_int_roundtrip in H. congruence.
Qed.

(** (C33) A negative decibel value, the whole default range [-71..-1],
    gives a code of ['0'], ['-'] and the digits of its magnitude. *)
Theorem vol_calc_negative db :
  (db < 0)%Z -> vol_calc db = String "0" (String "-" (py_str_int (- db))).
Proof. intros Hdb. destruct db as [|p|p]; [lia|lia|reflexivity]. Qed.

(** The decibel values 0..9 give a two-character code. *)
Lemma vol_calc_digit db :
  (0 <= db <= 9)%Z -> String.length (vol_calc db) = 2.
Proof.
  intros Hdb.
  assert (db = 0 \/ db = 1 \/ db = 2 \/ db = 3 \/ db = 4 \/ db = 5 \/ db = 6 \/
          db = 7 \/ db = 8 \/ db = 9)%Z as Hc by lia.
  repeat destruct Hc as [->|Hc]; [reflexivity ..|subst; reflexivity].
Qed.

(** ** Witnesses at concrete inputs *)

Lemma vol_calc_negative_witness :
  vol_calc (-36) = String "0" (String "-" (py_str_int 36)).
Proof. apply (vol_calc_negative (-36)). lia. Defined.

End PyStr.

(** The order of Python's [sorted] on [str]. *)
Module StrOrder <: Orders.TotalLeBool.
Definition t : Type := string.
Definition leb : t -> t -> bool := String.leb.
Theorem leb_total : forall a b, leb a b = true \/ leb b a = true.
Proof. exact String.leb_total. Qed.
Lemma leb_trans a b c : leb a b = true -> leb b c = true -> leb a c = true.
Proof. exact (PyStr.str_leb_trans a b c). Qed.
End StrOrder.

(** [sorted] on a list of strings: a stable merge sort, as CPython's
    Timsort is stable; on lists without duplicates every correct sort gives
    the same list ([PyDict.sorted_unique]). *)
Module StrSort := Mergesort.Sort StrOrder.

