(* ===== verification/PyDict.v ===== *)
(** * Python dicts: look-up, assignment, comprehensions and sorted keys

    A Python [dict] keeps its keys in insertion order, and [d[k] = v] on a
    present key replaces the value in place.  The order matters here: the
    reverse dictionaries of [Marantz.__init__] (lines 74-77) are built by a
    comprehension [{value: key for key, value in d.items()}], and when two
    keys share a value the later one wins.  A dict is therefore an
    association list in insertion order ([dict_get], [dict_setitem],
    [dict_comp]); its abstract meaning is stdpp's finite map
    ([dict_to_map]), and [dict_to_map_setitem] is the refinement of map
    insertion.  [sorted_keys] is [sorted(list(d.keys()))] of the properties
    [source_list] / [sound_mode_list] (lines 193-200). *)

From stdpp Require Import base list gmap strings.
From Stdlib Require Import Sorted Permutation.
From S2P Require Import Prelude PyStr.

Module PyDict.
Section Dict.
Context {K V : Type} `{EqDecision K}.

(** [d.get(k)]. *)
Fixpoint dict_get (d : list (K * V)) (k : K) : option V :=
  match d with
  | [] => None
  | (k', v) :: d' => if decide (k = k') then Some v else dict_get d' k
  end.

(** [d[k] = v]. *)
Fixpoint dict_setitem (d : list (K * V)) (k : K) (v : V) : list (K * V) :=
  match d with
  | [] => [(k, v)]
  | (k', v') :: d' =>
      if decide (k = k') then (k', v) :: d' else (k', v') :: dict_setitem d' k v
  end.

(** [d.keys()] and the values. *)
Definition dict_keys (d : list (K * V)) : list K := map fst d.
Definition dict_values (d : list (K * V)) : list V := map snd d.

(** A dict never holds a key twice. *)
Definition dict_wf (d : list (K * V)) : Prop := NoDup (dict_keys d).

#[export] Instance dict_wf_dec (d : list (K * V)) : Decision (dict_wf d).
Proof. unfold dict_wf. apply _. Defined.

(** The executable check of [dict_wf]. *)
Definition dict_wfb (d : list (K * V)) : bool := bool_decide (dict_wf d).

Context `{Countable K}.

(** The finite map a dict denotes. *)
Definition dict_to_map (d : list (K * V)) : gmap K V := list_to_map d.

End Dict.

(** A dict comprehension [{f(k, v) for k, v in d.items()}] assigns the
    pairs in the order of [d], starting from an empty dict. *)
Definition dict_comp_from {K V K' V'} `{EqDecision K'}
    (f : K -> V -> K' * V') (acc : list (K' * V')) (d : list (K * V)) : list (K' * V') :=
  fold_left (fun acc kv => let '(k', v') := f kv.1 kv.2 in dict_setitem acc k' v') d acc.

Definition dict_comp {K V K' V'} `{EqDecision K'}
    (f : K -> V -> K' * V') (d : list (K * V)) : list (K' * V') :=
  dict_comp_from f [] d.

(** [sorted(list(d.keys()))] for a dict with [str] keys. *)
Definition sorted_keys {V} (d : list (string * V)) : list string :=
  StrSort.sort (dict_keys d).
(** The reverse comprehensions of [__init__]:
    [{value: g(key) for key, value in d.items()}]. *)
Definition dict_reverse {K V W} `{EqDecision V} (g : K -> W) (d : list (K * V))
    : list (V * W) :=
  dict_comp (fun k v => (v, g k)) d.

(** ** Look-up and assignment *)

Section DictFacts.
Context {K V : Type} `{EqDecision K}.
Implicit Types (d : list (K * V)) (k : K) (v : V).

Lemma dict_wfb_sound d : dict_wfb d = true -> dict_wf d.
Proof. apply bool_decide_eq_true. Qed.

Lemma dict_wf_nil : dict_wf ([] : list (K * V)).
Proof. constructor. Qed.

Lemma dict_get_setitem d k v k' :
  dict_get (dict_setitem d k v) k' = if decide (k' = k) then Some v else dict_get d k'.
Proof.
  induction d as [|[k0 v0] d IH]; simpl.
  - by repeat case_decide.
  - repeat (case_decide; simplify_eq/=); rewrite ?IH; repeat case_decide; congruence.
Qed.

Lemma dict_get_In d k v : dict_get d k = Some v -> In (k, v) d.
Proof.
  induction d as [|[k0 v0] d IH]; simpl; [discriminate|].
  case_decide; [intros [= ->]; subst; auto|auto].
Qed.

Lemma dict_get_None d k : dict_get d k = None <-> ~ In k (dict_keys d).
Proof.
  induction d as [|[k0 v0] d IH]; simpl; [tauto|].
  case_decide; [split; [discriminate|intros H'; exfalso; auto]|].
  rewrite IH. split; [intros Hn [->|Hin]; auto|auto].
Qed.

Lemma dict_keys_setitem d k v :
  dict_keys (dict_setitem d k v) =
    if decide (k ∈ dict_keys d) then dict_keys d else dict_keys d ++ [k].
Proof.
  unfold dict_keys. induction d as [|[k0 v0] d IH]; simpl; [reflexivity|].
  destruct (decide (k = k0)) as [->|Hne]; simpl.
  - rewrite decide_True; [done|]. apply list_elem_of_here.
  - rewrite IH. repeat case_decide; simpl; set_solver.
Qed.

Lemma dict_setitem_wf d k v : dict_wf d -> dict_wf (dict_setitem d k v).
Proof.
  unfold dict_wf. rewrite dict_keys_setitem. case_decide; [done|].
  intros Hnd. apply NoDup_app. split; [done|]. split; [|apply NoDup_singleton].
  set_solver.
Qed.

Lemma dict_wf_get d k v : dict_wf d -> In (k, v) d -> dict_get d k = Some v.
Proof.
  unfold dict_wf, dict_keys. induction d as [|[k0 v0] d IH]; simpl; [done|].
  intros Hnd [Heq|Hin]; [simplify_eq; by rewrite decide_True|].
  apply NoDup_cons in Hnd as [Hnot Hnd].
  rewrite decide_False; [auto|].
  intros <-. apply Hnot, list_elem_of_In, in_map_iff. exists (k, v); auto.
Qed.
(** ** Refinement: the association list denotes a finite map *)

Context `{Countable K}.

Lemma dict_get_to_map d k : dict_get d k = dict_to_map d !! k.
Proof.
  unfold dict_to_map. induction d as [|[k0 v0] d IH]; simpl; [by rewrite lookup_empty|].
  rewrite lookup_insert. case_decide; subst; [by rewrite decide_True|].
  by rewrite decide_False.
Qed.

(** Assignment [d[k] = v] on the association list refines insertion
    into the finite map it denotes. *)
Theorem dict_to_map_setitem d k v :
  dict_to_map (dict_setitem d k v) = <[k:=v]> (dict_to_map d).
Proof.
  unfold dict_to_map. induction d as [|[k0 v0] d IH]; simpl; [reflexivity|].
  destruct (decide (k = k0)) as [->|Hne]; simpl.
  - by rewrite insert_insert_eq.
  - rewrite IH. by rewrite insert_insert_ne.
Qed.
End DictFacts.

(** ** Reverse comprehensions [{value: g(key) for key, value in d.items()}] *)

Section Reverse.
Context {K V W : Type} `{EqDecision V} (g : K -> W).

Implicit Types (d : list (K * V)) (x : V).

Let rev_from := dict_comp_from (fun (k : K) (v : V) => (v, g k)).
Lemma rev_from_cons acc k v d :
  rev_from acc ((k, v) :: d) = rev_from (dict_setitem acc v (g k)) d.
Proof. reflexivity. Qed.

Lemma rev_from_app acc d1 d2 :
  rev_from acc (d1 ++ d2) = rev_from (rev_from acc d1) d2.
Proof. unfold rev_from, dict_comp_from. apply fold_left_app. Qed.

Lemma rev_from_get_other acc d x :
  ~ In x (dict_values d) -> dict_get (rev_from acc d) x = dict_get acc x.
Proof.
  revert acc. induction d as [|[k v] d IH]; intros acc Hx; [reflexivity|].
  simpl in Hx. rewrite rev_from_cons, IH by tauto.
  rewrite dict_get_setitem. rewrite decide_False; [reflexivity|]. intros ->. tauto.
Qed.

Lemma rev_from_get_sound acc d x w :
  dict_get (rev_from acc d) x = Some w ->
  dict_get acc x = Some w \/ exists k, w = g k /\ In (k, x) d.
Proof.
  revert acc. induction d as [|[k v] d IH]; intros acc Hget; [auto|].
  rewrite rev_from_cons in Hget. destruct (IH _ Hget) as [Hacc|[k' [-> Hin]]].
  - rewrite dict_get_setitem in Hacc. case_decide; subst.
    + injection Hacc as <-. right. exists k. simpl. auto.
    + auto.
  - right. exists k'. simpl. auto.
Qed.

Lemma rev_from_keys acc d x :
  In x (dict_keys (rev_from acc d)) <-> In x (dict_keys acc) \/ In x (dict_values d).
Proof.
  revert acc. induction d as [|[k v] d IH]; intros acc; [simpl; tauto|].
  rewrite rev_from_cons, IH, dict_keys_setitem.
  case_decide as Hin; rewrite ?in_app_iff; simpl.
  - apply list_elem_of_In in Hin. intuition congruence.
  - intuition.
Qed.

Lemma rev_from_wf acc d : dict_wf acc -> dict_wf (rev_from acc d).
Proof.
  revert acc. induction d as [|[k v] d IH]; intros acc Hwf; [assumption|].
  rewrite rev_from_cons. apply IH, dict_setitem_wf, Hwf.
Qed.
(** A reverse look-up only returns (the image of) a key that maps to the
    looked-up value. *)
Lemma dict_reverse_sound d x w :
  dict_get (dict_reverse g d) x = Some w -> exists k, w = g k /\ In (k, x) d.
Proof.
  intros H. destruct (rev_from_get_sound [] d x w H) as [Hn|Hk]; [discriminate|exact Hk].
Qed.

(** When several keys share a value, the last of them wins. *)
Lemma dict_reverse_last d1 k x d2 :
  ~ In x (dict_values d2) ->
  dict_get (dict_reverse g (d1 ++ (k, x) :: d2)) x = Some (g k).
Proof.
  intros Hx. unfold dict_reverse, dict_comp. fold rev_from.
  rewrite rev_from_app, rev_from_cons, rev_from_get_other by assumption.
  rewrite dict_get_setitem. by rewrite decide_True.
Qed.

Corollary dict_reverse_inj d k x :
  NoDup (dict_values d) -> In (k, x) d -> dict_get (dict_reverse g d) x = Some (g k).
Proof.
  intros Hnd Hin. apply in_split in Hin as (d1 & d2 & ->).
  apply dict_reverse_last. unfold dict_values in Hnd.
  rewrite map_app in Hnd. simpl in Hnd.
  apply NoDup_app in Hnd as (_ & Hdisj & Hnd2). apply NoDup_cons in Hnd2 as [Hnot _].
  rewrite <- list_elem_of_In. exact Hnot.
Qed.

Lemma dict_reverse_keys d x : In x (dict_keys (dict_reverse g d)) <-> In x (dict_values d).
Proof. unfold dict_reverse, dict_comp. fold rev_from. rewrite rev_from_keys. simpl. tauto. Qed.

Lemma dict_reverse_wf d : dict_wf (dict_reverse g d).
Proof. apply rev_from_wf. constructor. Qed.

End Reverse.

(** ** Sorted keys *)

Lemma leb_neq_lt s1 s2 : String.leb s1 s2 = true -> s1 <> s2 -> PyStr.str_lt s1 s2.
Proof.
  unfold String.leb, PyStr.str_lt. destruct (String.compare s1 s2) eqn:E; try done.
  intros _ Hne. by apply String.compare_eq_iff in E.
Qed.

Lemma strongly_sorted_strict l :
  StronglySorted (fun a b => String.leb a b = true) l -> NoDup l -> StronglySorted PyStr.str_lt l.
Proof.
  induction 1 as [|a l Hs IH Hall]; intros Hnd; constructor.
  - apply IH. by apply NoDup_cons in Hnd as [_ ?].
  - apply NoDup_cons in Hnd as [Hnot _]. apply List.Forall_forall. intros b Hb.
    apply leb_neq_lt; [by eapply List.Forall_forall in Hall|].
    intros ->. apply Hnot, list_elem_of_In, Hb.
Qed.

Lemma str_lt_asym a b : PyStr.str_lt a b -> PyStr.str_lt b a -> False.
Proof. intros Hab Hba. exact (PyStr.str_lt_irrefl a (PyStr.string_compare_trans _ _ _ Hab Hba)). Qed.

(** Two strictly sorted lists with the same elements are equal. *)
Lemma sorted_unique l1 l2 :
  StronglySorted PyStr.str_lt l1 -> StronglySorted PyStr.str_lt l2 ->
  (forall x, In x l1 <-> In x l2) -> l1 = l2.
Proof.
  intros Hs1. revert l2. induction Hs1 as [|a l1 Hs1 IH Hall1]; intros l2 Hs2 Heq.
  - destruct l2 as [|b l2]; [done|]. exfalso. apply (proj2 (Heq b)). simpl; auto.
  - destruct Hs2 as [|b l2 Hs2 Hall2].
    + exfalso. apply (proj1 (Heq a)). simpl; auto.
    + assert (a = b) as <-.
      { destruct (PyStr.str_lt_total a b) as [Hab|[Hab|Hba]]; [|done|].
        - destruct (proj1 (Heq a) (or_introl eq_refl)) as [Hba|Ha].
          + subst. by destruct (PyStr.str_lt_irrefl _ Hab).
          + by destruct (str_lt_asym a b Hab (proj1 (List.Forall_forall _ _) Hall2 a Ha)).
        - destruct (proj2 (Heq b) (or_introl eq_refl)) as [Hab|Hb].
          + subst. by destruct (PyStr.str_lt_irrefl _ Hba).
          + by destruct (str_lt_asym a b (proj1 (List.Forall_forall _ _) Hall1 b Hb) Hba). }
      f_equal. apply IH; [assumption|]. intros x. split; intros Hx.
      * destruct (proj1 (Heq x) (or_intror Hx)) as [Hax|?]; [|done].
        subst. by destruct (PyStr.str_lt_irrefl _ (proj1 (List.Forall_forall _ _) Hall1 _ Hx)).
      * destruct (proj2 (Heq x) (or_intror Hx)) as [Hax|?]; [|done].
        subst. by destruct (PyStr.str_lt_irrefl _ (proj1 (List.Forall_forall _ _) Hall2 _ Hx)).
Qed.

Lemma sorted_keys_perm {V} (d : list (string * V)) : Permutation (dict_keys d) (sorted_keys d).
Proof. apply StrSort.Permuted_sort. Qed.

Lemma sorted_keys_In {V} (d : list (string * V)) x : In x (sorted_keys d) <-> In x (dict_keys d).
Proof. split; apply Permutation_in; [symmetry|]; apply sorted_keys_perm. Qed.

Lemma sorted_keys_sorted {V} (d : list (string * V)) :
  dict_wf d -> StronglySorted PyStr.str_lt (sorted_keys d).
Proof.
  intros Hwf. apply strongly_sorted_strict.
  - apply StrSort.StronglySorted_sort. intros a b c. apply PyStr.str_leb_trans.
  - by rewrite <- (sorted_keys_perm d).
Qed.

(** The sorted key list depends only on the set of keys, not on the
    insertion order. *)
Lemma sorted_keys_canonical {V} (d1 d2 : list (string * V)) :
  dict_wf d1 -> dict_wf d2 ->
  (forall x, In x (dict_keys d1) <-> In x (dict_keys d2)) ->
  sorted_keys d1 = sorted_keys d2.
Proof.
  intros H1 H2 Heq. apply sorted_unique; try apply sorted_keys_sorted; try assumption.
  intros x. rewrite !sorted_keys_In. apply Heq.
Qed.

End PyDict.
