(* ===== verification/Volume.v ===== *)
(** * Volume conversion: [Marantz.calc_volume] and [Marantz.calc_db]

    Lines 82-98 of [media_player.py].  The receiver reports and accepts
    decibels; the host uses a fraction in [0,1].  The two methods only read
    [self._min_volume] and [self._max_volume], so they are modelled as
    functions of those two integers.  The division of two Python ints is a
    float division; it is modelled exactly in [Q], and [round] is Python 3's
    round-half-to-even ([py_round]).  Equality of rationals is [Qeq], coarser
    than [=]: [py_round] and [calc_db] are shown to respect it ([Proper]
    instances), so setoid rewriting moves through them. *)

From Stdlib Require Import ZArith QArith Qabs Qround Lia Lqa Morphisms.
From S2P Require Import Prelude.

Module Volume.

(** [DEFAULT_MIN_VOLUME], [DEFAULT_MAX_VOLUME] (lines 23-24). *)
Definition DEFAULT_MIN_VOLUME : Z := -71.
Definition DEFAULT_MAX_VOLUME : Z := -1.

(** Python's [round(x)] with no digit argument: the nearest integer, ties
    to the even one. *)
Definition py_round (q : Q) : Z :=
  let f := Qfloor q in
  match Qcompare (q - inject_Z f) (1 # 2) with
  | Lt => f
  | Gt => (f + 1)%Z
  | Eq => if Z.even f then f else (f + 1)%Z
  end.

(** [calc_volume(self, decibel)]:
    [abs(self._min_volume - decibel) / abs(self._min_volume - self._max_volume)].
    The subtraction raises [TypeError] on a [str] or [None] reply; the
    division raises [ZeroDivisionError] when the two bounds are equal. *)
Definition calc_volume (min_volume max_volume : Z) (decibel : pyval) : result Q :=
  match py_sub_int min_volume decibel with
  | Raise e => Raise e
  | Ok diff =>
      let den := Z.abs (min_volume - max_volume) in
      if Z.eqb den 0 then Raise ZeroDivisionError
      else Ok (inject_Z (Z.abs diff) / inject_Z den)
  end.

(** [calc_db(self, volume)]:
    [self._min_volume + round(abs(self._min_volume - self._max_volume) * volume)]. *)
Definition calc_db (min_volume max_volume : Z) (volume : Q) : Z :=
  (min_volume + py_round (inject_Z (Z.abs (min_volume - max_volume)) * volume))%Z.

(** ** Python's round *)

Lemma py_round_spec q :
  inject_Z (py_round q) - (1 # 2) <= q <= inject_Z (py_round q) + (1 # 2).
Proof.
  unfold py_round.
  pose proof (Qfloor_le q) as Hle. pose proof (Qlt_floor q) as Hlt.
  rewrite inject_Z_plus in Hlt.
  destruct (Qcompare_spec (q - inject_Z (Qfloor q)) (1 # 2)) as [H|H|H];
    [destruct (Z.even (Qfloor q))|..]; rewrite ?inject_Z_plus;
    change (inject_Z 1) with 1 in *; lra.
Qed.

#[export] Instance py_round_proper : Proper (Qeq ==> eq) py_round.
Proof.
  intros q q' Hq. unfold py_round.
  rewrite (Qfloor_comp q q' Hq), Hq. reflexivity.
Qed.

(** The integers within one half of [q] are [py_round q] and, on a tie,
    its neighbour: any integer strictly closer than one half is it. *)
Lemma py_round_unique q z :
  inject_Z z - (1 # 2) < q < inject_Z z + (1 # 2) -> py_round q = z.
Proof.
  intros Hz. pose proof (py_round_spec q) as Hr.
  assert (Hlt : (py_round q < z + 1 /\ z < py_round q + 1)%Z).
  { split; rewrite Zlt_Qlt, inject_Z_plus; change (inject_Z 1) with 1; lra. }
  lia.
Qed.

Lemma py_round_Z z : py_round (inject_Z z) = z.
Proof. apply py_round_unique. lra. Qed.

Lemma py_round_mono q q' : q <= q' -> (py_round q <= py_round q')%Z.
Proof.
  intros Hq. destruct (Z.le_gt_cases (py_round q) (py_round q')) as [|Hgt]; [assumption|].
  exfalso. pose proof (py_round_spec q). pose proof (py_round_spec q').
  assert (Hge : (py_round q' + 1 <= py_round q)%Z) by lia.
  rewrite Zle_Qle, inject_Z_plus in Hge. change (inject_Z 1) with 1 in Hge.
  assert (Heq : q == q') by lra.
  rewrite Heq in Hgt. lia.
Qed.

#[export] Hint Rewrite py_round_Z : pyrun.

(** ** calc_volume on each kind of reply *)

Lemma calc_volume_int mn mx d :
  mn <> mx ->
  calc_volume mn mx (PyInt d) =
    Ok (inject_Z (Z.abs (mn - d)) / inject_Z (Z.abs (mn - mx))).
Proof.
  intros Hne. unfold calc_volume. simpl.
  replace (Z.abs (mn - mx) =? 0)%Z with false; [reflexivity|].
  symmetry. apply Z.eqb_neq. lia.
Qed.

#[export] Instance calc_db_proper mn mx : Proper (Qeq ==> eq) (calc_db mn mx).
Proof. intros q q' Hq. unfold calc_db. rewrite Hq. reflexivity. Qed.

(** ** Shared arithmetic *)

Lemma inject_Z_abs_pos a : a <> 0%Z -> 0 < inject_Z (Z.abs a).
Proof. intros H. change 0 with (inject_Z 0). rewrite <- Zlt_Qlt. lia. Qed.

Lemma inject_Z_abs_nonneg a : 0 <= inject_Z (Z.abs a).
Proof. change 0 with (inject_Z 0). rewrite <- Zle_Qle. lia. Qed.

Lemma Qdiv_unit_interval a b : 0 <= a -> a <= b -> 0 < b -> 0 <= a / b <= 1.
Proof.
  intros Ha Hab Hb. split.
  - apply Qle_shift_div_l; [assumption|]. lra.
  - apply Qle_shift_div_r; [assumption|]. lra.
Qed.

Lemma Qscale_nonneg r f : 0 <= r -> 0 <= f -> 0 <= r * f.
Proof.
  intros Hr Hf. rewrite <- (Qmult_0_r r), !(Qmult_comm r).
  apply Qmult_le_compat_r; assumption.
Qed.

Lemma Qscale_le r f f' : 0 <= r -> f <= f' -> r * f <= r * f'.
Proof. intros Hr Hf. rewrite !(Qmult_comm r). apply Qmult_le_compat_r; assumption. Qed.

(** Dividing an error of at most one half by [r]. *)
Lemma Qdiv_half_error k r f :
  0 < r -> Qabs (k - r * f) <= 1 # 2 -> Qabs (k / r - f) <= 1 / (inject_Z 2 * r).
Proof.
  intros Hr Hk.
  assert (Hne : ~ r == 0) by (intro; lra).
  setoid_replace (k / r - f) with ((k - r * f) * / r) by (field; assumption).
  setoid_replace (1 / (inject_Z 2 * r)) with ((1 # 2) * / r)
    by (change (inject_Z 2) with 2; field; assumption).
  rewrite Qabs_Qmult, (Qabs_pos (/ r)) by (apply Qlt_le_weak, Qinv_lt_0_compat; assumption).
  apply Qmult_le_compat_r; [assumption|].
  apply Qlt_le_weak, Qinv_lt_0_compat; assumption.
Qed.

#[export] Hint Resolve inject_Z_abs_pos inject_Z_abs_nonneg Qscale_nonneg : pyrun.

(** ** Properties of the conversion *)

(** The decibel-to-fraction conversion followed by the inverse gives
    [min + |min - d|]: the decibel itself exactly when it is not below the
    minimum. *)
Lemma calc_db_calc_volume mn mx d :
  mn <> mx ->
  exists v, calc_volume mn mx (PyInt d) = Ok v /\ calc_db mn mx v = (mn + Z.abs (mn - d))%Z.
Proof.
  intros Hne. rewrite calc_volume_int by assumption.
  eexists; split; [reflexivity|]. unfold calc_db.
  assert (Hr : ~ inject_Z (Z.abs (mn - mx)) == 0)
    by (pose proof (inject_Z_abs_pos (mn - mx) ltac:(lia)); intro; lra).
  setoid_rewrite (Qmult_div_r _ _ Hr). rewrite py_round_Z. reflexivity.
Qed.

(** (C11) For [min <> max], every decibel value not below [min] survives
    [calc_volume] followed by [calc_db]. *)
Theorem calc_volume_roundtrip mn mx d :
  mn <> mx -> (mn <= d)%Z ->
  exists v, calc_volume mn mx (PyInt d) = Ok v /\ calc_db mn mx v = d.
Proof.
  intros Hne Hd. destruct (calc_db_calc_volume mn mx d Hne) as [v [Hv Hdb]].
  exists v. split; [assumption|]. lia.
Qed.

(** (C26) A decibel value between the two configured bounds, in either
    order, maps to a fraction in [0,1]. *)
Theorem calc_volume_bounds mn mx d :
  mn <> mx -> (Z.min mn mx <= d <= Z.max mn mx)%Z ->
  exists v, calc_volume mn mx (PyInt d) = Ok v /\ 0 <= v <= 1.
Proof.
  intros Hne Hd. rewrite calc_volume_int by assumption.
  eexists; split; [reflexivity|].
  apply Qdiv_unit_interval;
    [apply inject_Z_abs_nonneg | rewrite <- Zle_Qle; lia | apply inject_Z_abs_pos; lia].
Qed.

(** A fraction in [0,1] maps to a decibel value in
    [[min, min + |min - max|]]; for [min <= max] that is [[min, max]]. *)
Lemma calc_db_range mn mx f :
  0 <= f <= 1 ->
  (mn <= calc_db mn mx f <= mn + Z.abs (mn - mx))%Z.
Proof.
  intros Hf. unfold calc_db.
  pose proof (inject_Z_abs_nonneg (mn - mx)) as Hr.
  assert (H0 : (py_round 0 <= py_round (inject_Z (Z.abs (mn - mx)) * f))%Z)
    by (apply py_round_mono, Qscale_nonneg; tauto).
  assert (H1 : (py_round (inject_Z (Z.abs (mn - mx)) * f) <=
                py_round (inject_Z (Z.abs (mn - mx)) * 1))%Z)
    by (apply py_round_mono, Qscale_le; tauto).
  rewrite Qmult_1_r, py_round_Z in H1. change 0 with (inject_Z 0) in H0.
  rewrite py_round_Z in H0. lia.
Qed.

(** (C27) [calc_db] is monotone: a larger fraction never gives a lower
    decibel value. *)
Theorem calc_db_mono mn mx f f' :
  f <= f' -> (calc_db mn mx f <= calc_db mn mx f')%Z.
Proof.
  intros Hf. unfold calc_db.
  apply Z.add_le_mono_l, py_round_mono, Qscale_le; auto with pyrun.
Qed.

(** (C28) The fraction 0 gives [min] and 1 gives [min + |min - max|]. *)
Theorem calc_db_endpoints mn mx :
  calc_db mn mx 0 = mn /\ calc_db mn mx 1 = (mn + Z.abs (mn - mx))%Z.
Proof.
  unfold calc_db. rewrite Qmult_0_r, Qmult_1_r.
  change 0 with (inject_Z 0). rewrite !py_round_Z. lia.
Qed.

Lemma Qfloor_unique q z :
  inject_Z z <= q < inject_Z z + 1 -> Qfloor q = z.
Proof.
  intros Hq. pose proof (Qfloor_le q). pose proof (Qlt_floor q) as Hlt.
  rewrite inject_Z_plus in Hlt. change (inject_Z 1) with 1 in Hlt.
  assert (Qfloor q < z + 1 /\ z < Qfloor q + 1)%Z; [|lia].
  split; rewrite Zlt_Qlt, inject_Z_plus; change (inject_Z 1) with 1; lra.
Qed.

(** Python rounds a half to the even neighbour: [round(2.5) = 2],
    [round(3.5) = 4]. *)
Lemma py_round_half z :
  py_round (inject_Z z + (1 # 2)) = if Z.even z then z else (z + 1)%Z.
Proof.
  unfold py_round. rewrite (Qfloor_unique _ z) by lra.
  replace (inject_Z z + (1 # 2) - inject_Z z ?= 1 # 2) with Eq; [reflexivity|].
  symmetry. apply Qeq_alt. ring.
Qed.

(** (C12) Setting a fraction in [0,1] and reading it back through
    [calc_volume] loses at most one rounding step:
    [|calc_volume (calc_db f) - f| <= 1 / (2 |min - max|)]. *)
Theorem calc_volume_calc_db mn mx f :
  mn <> mx -> 0 <= f ->
  exists v, calc_volume mn mx (PyInt (calc_db mn mx f)) = Ok v /\
            Qabs (v - f) <= 1 / (inject_Z 2 * inject_Z (Z.abs (mn - mx))).
Proof.
  intros Hne Hf. rewrite calc_volume_int by assumption.
  eexists; split; [reflexivity|].
  set (r := inject_Z (Z.abs (mn - mx))).
  assert (Hk : (0 <= py_round (r * f))%Z).
  { rewrite <- (py_round_Z 0). apply py_round_mono, Qscale_nonneg; [apply inject_Z_abs_nonneg|assumption]. }
  unfold calc_db. fold r.
  replace (Z.abs (mn - (mn + py_round (r * f)))) with (py_round (r * f)) by lia.
  apply Qdiv_half_error; [apply inject_Z_abs_pos; lia|].
  pose proof (py_round_spec (r * f)). apply Qabs_case; intros; lra.
Qed.

(** (C31) With an inverted configuration ([max < min], which the schema
    accepts), every fraction in [0,1] gives a decibel value at or above
    [min]; the fraction 1 gives [2 min - max], beyond both bounds. *)
Theorem calc_db_inverted mn mx f :
  (mx < mn)%Z -> 0 <= f <= 1 ->
  (mn <= calc_db mn mx f <= 2 * mn - mx)%Z /\ calc_db mn mx 1 = (2 * mn - mx)%Z.
Proof.
  intros Hlt Hf. pose proof (calc_db_range mn mx f Hf). split; [lia|].
  unfold calc_db. rewrite Qmult_1_r, py_round_Z. lia.
Qed.

(** (C30) At an exact tie, where [|min - max| * volume] is [k + 1/2],
    [calc_db] rounds to the even neighbour of [k] (line 98 uses Python's
    [round]): with bounds [-6, -1] the level [0.5] gives [-4], not [-3]. *)
Theorem calc_db_half_even mn mx f k :
  inject_Z (Z.abs (mn - mx)) * f == inject_Z k + (1 # 2) ->
  calc_db mn mx f = (mn + if Z.even k then k else k + 1)%Z.
Proof. intros Hk. unfold calc_db. rewrite Hk, py_round_half. reflexivity. Qed.

(** ** Witnesses at concrete inputs *)

Lemma calc_volume_roundtrip_witness :
  exists v, calc_volume (-71) (-1) (PyInt (-36)) = Ok v /\ calc_db (-71) (-1) v = (-36)%Z.
Proof. apply (calc_volume_roundtrip (-71) (-1) (-36)); lia. Defined.

Lemma calc_volume_bounds_witness :
  exists v, calc_volume (-71) (-1) (PyInt (-20)) = Ok v /\ 0 <= v <= 1.
Proof. apply (calc_volume_bounds (-71) (-1) (-20)); lia. Defined.

Lemma calc_db_mono_witness : (calc_db (-71) (-1) (1 # 4) <= calc_db (-71) (-1) (1 # 2))%Z.
Proof. apply (calc_db_mono (-71) (-1) (1 # 4) (1 # 2)). vm_compute. discriminate. Defined.

Lemma calc_volume_calc_db_witness :
  exists v, calc_volume (-71) (-1) (PyInt (calc_db (-71) (-1) (1 # 3))) = Ok v /\
            Qabs (v - (1 # 3)) <= 1 / (inject_Z 2 * inject_Z (Z.abs (-71 - -1))).
Proof. apply (calc_volume_calc_db (-71) (-1) (1 # 3)); [lia | vm_compute; discriminate]. Defined.

Lemma calc_db_inverted_witness :
  (-5 <= calc_db (-5) (-10) (1 # 2) <= 2 * -5 - -10)%Z /\ calc_db (-5) (-10) 1 = (2 * -5 - -10)%Z.
Proof.
  apply (calc_db_inverted (-5) (-10) (1 # 2)); [lia | split; vm_compute; discriminate].
Defined.

Lemma calc_db_half_even_witness :
  calc_db (-6) (-1) (1 # 2) = (-6 + if Z.even 2 then 2 else 2 + 1)%Z.
Proof. apply (calc_db_half_even (-6) (-1) (1 # 2) 2). vm_compute. reflexivity. Defined.

End Volume.
