(* ===== verification/Config.v ===== *)
(** * The configuration schema [PLATFORM_SCHEMA] (lines 22-45)

    Home Assistant loads the platform's YAML entry as a mapping from keys to
    values ([raw]) and validates it with the voluptuous schema of lines
    37-45: [serial_port] is required, the other six keys have defaults, and
    keys the schema does not know pass through ([PLATFORM_SCHEMA] extends
    the host's schema, which allows extra keys).  The validators the schema
    names are modelled as voluptuous and Home Assistant define them:
    - [cv.string] ([cv_string]): [None] and lists or dicts are refused, an
      int or bool is converted with [str];
    - the type [int] ([py_int]): an int, or a bool (a subclass of int);
      a string such as ["-71"] is refused ("expected int");
    - [{cv.string: cv.string}] ([str_dict]): a mapping whose keys and values
      pass [cv.string]; a key that fails is an extra key, which a nested
      dict schema refuses; the validated pairs are assigned in order, so two
      keys equal after conversion keep the later value.
    Defaults are inserted for missing keys and validated like given values.
    All errors are reported together; here they are listed in the schema's
    order with a missing [serial_port] last, where voluptuous lists the
    given keys in the data's order: only the order of the list differs.
    The host's own keys ([platform], [scan_interval]) are not modelled.  The validated configuration is the record [config]. *)

From Stdlib Require Import ZArith String List.
From S2P Require Import Prelude PyStr PyDict Volume.
Import ListNotations PyStr PyDict Volume.

Module Config.

Local Open Scope string_scope.

(** A YAML value. *)
Inductive raw : Type :=
| RNone
| RBool (b : bool)
| RInt (z : Z)
| RStr (s : string)
| RSeq (items : list raw)
| RMap (items : list (raw * raw)).

(** A validation error: the path of keys to the offending value and the
    message. *)
Record invalid : Type := mk_invalid { path : list raw; msg : string }.

(** [DEFAULT_NAME] (line 22) and the configuration keys (lines 30-35; [name]
    is the host's [CONF_NAME]). *)
Definition DEFAULT_NAME : string := "Marantz Receiver".
Definition CONF_NAME : string := "name".
Definition CONF_SERIAL_PORT : string := "serial_port".
Definition CONF_MIN_VOLUME : string := "min_volume".
Definition CONF_MAX_VOLUME : string := "max_volume".
Definition CONF_SOURCE_DICT : string := "sources".
Definition CONF_SOUNDMODE_DICT : string := "soundmode".
Definition CONF_UNIQUE_ID : string := "unique_id".

(** [cv.string]. *)
Definition cv_string (v : raw) : string + string :=
  match v with
  | RNone => inl "string value is None"
  | RSeq _ | RMap _ => inl "value should be a string"
  | RStr s => inr s
  | RInt z => inr (py_str_int z)
  | RBool b => inr (if b then "True" else "False")
  end.

(** The type [int] used as a validator. *)
Definition py_int (v : raw) : string + Z :=
  match v with
  | RInt z => inr z
  | RBool b => inr (if b then 1%Z else 0%Z)
  | _ => inl "expected int"
  end.

(** One item of a [{cv.string: cv.string}] mapping, added to the errors
    and the validated dict built so far. *)
Definition str_dict_item (acc : list invalid * list (string * string)) (kv : raw * raw)
    : list invalid * list (string * string) :=
  let '(errs, out) := acc in
  let '(k, v) := kv in
  match cv_string k with
  | inl _ => ((errs ++ [mk_invalid [k] "extra keys not allowed"])%list, out)
  | inr k' =>
      match cv_string v with
      | inl m => ((errs ++ [mk_invalid [k] m])%list, out)
      | inr v' => (errs, dict_setitem out k' v')
      end
  end.

(** [{cv.string: cv.string}]. *)
Definition str_dict (v : raw) : list invalid * list (string * string) :=
  match v with
  | RMap items => fold_left str_dict_item items ([], [])
  | _ => ([mk_invalid [] "expected a dictionary"], [])
  end.

(** The validated configuration. *)
Record config : Type := mk_config {
  serial_port : string;
  name : string;
  min_volume : Z;
  max_volume : Z;
  sources : list (string * string);
  soundmode : list (string * string);
  unique_id : string
}.

(** The value of a key: given, or its default. *)
Definition given_or (data : list (string * raw)) (key : string) (default : raw) : raw :=
  match dict_get data key with Some v => v | None => default end.

(** Prefix the key to the paths of errors. *)
Definition at_key (key : string) (errs : list invalid) : list invalid :=
  map (fun e => mk_invalid (RStr key :: path e) (msg e)) errs.

Definition str_field (data : list (string * raw)) (key : string) (default : raw)
    : list invalid * string :=
  match cv_string (given_or data key default) with
  | inl m => ([mk_invalid [RStr key] m], "")
  | inr s => ([], s)
  end.

Definition int_field (data : list (string * raw)) (key : string) (default : Z)
    : list invalid * Z :=
  match py_int (given_or data key (RInt default)) with
  | inl m => ([mk_invalid [RStr key] m], 0%Z)
  | inr z => ([], z)
  end.

Definition dict_field (data : list (string * raw)) (key : string)
    : list invalid * list (string * string) :=
  let '(errs, d) := str_dict (given_or data key (RMap [])) in (at_key key errs, d).

(** [PLATFORM_SCHEMA(data)] (lines 37-45): the validated configuration, or
    the list of errors. *)
Definition PLATFORM_SCHEMA (data : list (string * raw)) : list invalid + config :=
  let '(e_port, port) :=
    match dict_get data CONF_SERIAL_PORT with
    | Some v => str_field data CONF_SERIAL_PORT v
    | None => ([mk_invalid [RStr CONF_SERIAL_PORT] "required key not provided"], "")
    end in
  let '(e_name, nm) := str_field data CONF_NAME (RStr DEFAULT_NAME) in
  let '(e_min, mn) := int_field data CONF_MIN_VOLUME DEFAULT_MIN_VOLUME in
  let '(e_max, mx) := int_field data CONF_MAX_VOLUME DEFAULT_MAX_VOLUME in
  let '(e_src, src) := dict_field data CONF_SOURCE_DICT in
  let '(e_snd, snd) := dict_field data CONF_SOUNDMODE_DICT in
  let '(e_uid, uid) := str_field data CONF_UNIQUE_ID (RStr "") in
  match (e_name ++ e_min ++ e_max ++ e_src ++ e_snd ++ e_uid ++ e_port)%list with
  | [] => inr (mk_config port nm mn mx src snd uid)
  | errs => inl errs
  end.

(** ** Properties of the schema *)

(** Destructure the field results of [PLATFORM_SCHEMA]. *)
Ltac split_fields :=
  repeat match goal with
  | |- context [let '(_, _) := ?x in _] => destruct x
  end.


(** (C19) Without [serial_port] validation fails, and the errors include
    "required key not provided" for it. *)
Theorem schema_missing_serial_port data :
  dict_get data CONF_SERIAL_PORT = None ->
  exists errs, PLATFORM_SCHEMA data = inl errs /\
    In (mk_invalid [RStr CONF_SERIAL_PORT] "required key not provided") errs.
Proof.
  intros Hnone. unfold PLATFORM_SCHEMA. rewrite Hnone. split_fields.
  set (errs := (_ ++ _)%list).
  assert (Hin : In (mk_invalid [RStr CONF_SERIAL_PORT] "required key not provided") errs)
    by (subst errs; rewrite !in_app_iff; simpl; tauto).
  destruct errs as [|e errs']; [contradiction|]. eauto.
Qed.

(** (C32) The schema checks each bound on its own: any two ints are
    accepted, also a minimum above the maximum. *)
Theorem schema_accepts_any_bounds p a b :
  PLATFORM_SCHEMA [(CONF_SERIAL_PORT, RStr p); (CONF_MIN_VOLUME, RInt a); (CONF_MAX_VOLUME, RInt b)] =
    inr (mk_config p DEFAULT_NAME a b [] [] "").
Proof. reflexivity. Qed.

Lemma str_dict_items_wf items acc :
  dict_wf (snd acc) -> dict_wf (snd (fold_left str_dict_item items acc)).
Proof.
  revert acc. induction items as [|[k v] items IH]; intros [errs out] Hwf; [exact Hwf|].
  simpl. apply IH. unfold str_dict_item.
  destruct (cv_string k); [exact Hwf|]. destruct (cv_string v); [exact Hwf|].
  apply dict_setitem_wf, Hwf.
Qed.

Lemma str_dict_wf v : dict_wf (snd (str_dict v)).
Proof. destruct v; try apply dict_wf_nil. apply str_dict_items_wf, dict_wf_nil. Qed.

Lemma dict_field_wf data key : dict_wf (snd (dict_field data key)).
Proof.
  unfold dict_field. pose proof (str_dict_wf (given_or data key (RMap []))) as H.
  destruct (str_dict _). exact H.
Qed.

(** A validated configuration has source and sound-mode dicts without
    repeated keys, even when two YAML keys become equal under [cv.string]. *)
Theorem schema_dicts_wf data cfg :
  PLATFORM_SCHEMA data = inr cfg -> dict_wf (sources cfg) /\ dict_wf (soundmode cfg).
Proof.
  unfold PLATFORM_SCHEMA.
  pose proof (dict_field_wf data CONF_SOURCE_DICT) as Hs.
  pose proof (dict_field_wf data CONF_SOUNDMODE_DICT) as Hm.
  destruct (dict_field data CONF_SOURCE_DICT) as [e_src src].
  destruct (dict_field data CONF_SOUNDMODE_DICT) as [e_snd snd].
  split_fields. destruct (_ ++ _)%list; intros H; [|discriminate].
  injection H as <-. split; assumption.
Qed.

(** ** Witnesses at concrete inputs *)

Lemma schema_missing_serial_port_witness :
  exists errs, PLATFORM_SCHEMA [(CONF_NAME, RStr "Amp")] = inl errs /\
    In (mk_invalid [RStr CONF_SERIAL_PORT] "required key not provided") errs.
Proof. apply (schema_missing_serial_port [(CONF_NAME, RStr "Amp")]). reflexivity. Defined.


End Config.
