(* ===== verification/Receiver.v ===== *)
(** * The vendor receiver client, as an interface

    [setup_platform] (line 53) builds [MarantzReceiver(serial_port)] from the
    vendor package [marantz_receiver], which is not in the repository.  The
    entity uses five of its methods, each called as [m(':', code)]: the
    marker [':'] and either the query code ['?'] or a write code.  A call
    returns a Python value or raises; what the device does is the vendor's.

    The interface is the class [Receiver]: a state type and a [receive]
    function answering a [call].  The entity's methods run on a [world]: the
    entity's attributes, the receiver's state, and a log of the calls made
    (a ghost record, so that the order and the codes of the calls can be
    stated).  [invoke] appends the call to the log and asks the receiver;
    an exception of the receiver propagates, as nothing in the adapter
    catches it.  [Script] is a test double: a receiver that answers from a
    list of prepared results, used by the concrete examples. *)

From Stdlib Require Import ZArith String List.
From S2P Require Import Prelude.
Import ListNotations.

Module Receiver.

(** The methods of [MarantzReceiver] the adapter calls. *)
Inductive command : Type :=
| main_power
| main_mute
| main_volume
| main_source
| main_sound_mode.

(** One method call [m(marker, code)]. *)
Record call : Type := mk_call { cmd : command; marker : string; code : pyval }.

(** [m(':', '?')]. *)
Definition query (c : command) : call := mk_call c ":"%string (PyStr "?"%string).

(** [m(':', code)]. *)
Definition write (c : command) (v : pyval) : call := mk_call c ":"%string v.

Class Receiver (R : Type) : Type := {
  receive : R -> call -> result pyval * R
}.

Record world (E R : Type) : Type := mk_world {
  ent : E;
  dev : R;
  log : list call
}.
Arguments mk_world {E R} ent dev log.
Arguments ent {E R} w.
Arguments dev {E R} w.
Arguments log {E R} w.

Section Invoke.
Context {E R : Type} `{Receiver R}.

(** [self._marantz_receiver.m(':', code)]. *)
Definition invoke (c : call) : PyM (world E R) pyval :=
  fun w => let (res, r') := receive (dev w) c in
           (res, mk_world (ent w) r' (log w ++ [c])).

(** Assignment of attributes of [self]. *)
Definition modify_ent (f : E -> E) : PyM (world E R) unit :=
  modify (fun w => mk_world (f (ent w)) (dev w) (log w)).

Lemma invoke_ok w c v r' :
  receive (dev w) c = (Ok v, r') ->
  invoke c w = (Ok v, mk_world (ent w) r' (log w ++ [c])).
Proof. unfold invoke. intros ->. reflexivity. Qed.

Lemma invoke_raise w c e r' :
  receive (dev w) c = (Raise e, r') ->
  invoke c w = (Raise e, mk_world (ent w) r' (log w ++ [c])).
Proof. unfold invoke. intros ->. reflexivity. Qed.

Lemma invoke_ent c w : ent (snd (invoke c w)) = ent w.
Proof. unfold invoke. destruct (receive (dev w) c). reflexivity. Qed.

Lemma invoke_log c w : log (snd (invoke c w)) = log w ++ [c].
Proof. unfold invoke. destruct (receive (dev w) c). reflexivity. Qed.

(** [answers r cs vs r']: from state [r], the receiver answers the calls
    [cs] in turn with the values [vs] (none raises) and ends in [r']. *)
Inductive answers : R -> list call -> list pyval -> R -> Prop :=
| answers_nil r : answers r [] [] r
| answers_cons r c v r1 cs vs r2 :
    receive r c = (Ok v, r1) -> answers r1 cs vs r2 -> answers r (c :: cs) (v :: vs) r2.

End Invoke.

(** Turn an [answers] hypothesis into the equations of its calls. *)
Ltac unpack_answers :=
  repeat match goal with
  | H : answers _ (_ :: _) _ _ |- _ =>
      let Hc := fresh "Hrecv" in inversion H as [|? ? ? ? ? ? ? Hc ?]; subst; clear H
  | H : answers _ [] _ _ |- _ => inversion H; subst; clear H
  end.

(** A receiver that answers from a list of prepared results, and raises
    once the list is used up. *)
#[export] Instance Script : Receiver (list (result pyval)) := {
  receive rs c :=
    match rs with
    | [] => (Raise (ReceiverError "no reply"%string), [])
    | r :: rs' => (r, rs')
    end
}.

(** Build an [answers] derivation for a concrete receiver. *)
Ltac solve_answers :=
  repeat (eapply answers_cons; [reflexivity|]); apply answers_nil.

End Receiver.
