(* ===== verification/Marantz.v ===== *)
(** * The entity class [Marantz] (lines 62-204)

    The attributes of [self] are the record [entity]; [_marantz_receiver] is
    the receiver of the [world] ([Receiver]).  Attributes that are [None]
    are [option]s; [_sound_mode] is never assigned by [__init__] (line 80
    assigns [_volume], [_state], [_mute] and [_source] only), so until the
    first [update] reaches line 128 the attribute does not exist: [attr]
    records that, and reading the property then raises [AttributeError].

    [update] and the commands are written in the monad [PyM] over the world,
    one statement per line of the source.  The properties are functions of
    the entity.  [command_op] lists the host's command calls, and
    [run_command] dispatches them.  [sends] states that a method makes
    exactly one call and leaves the entity as it was; [reachable] is the
    step relation of the host (a fresh entity, then updates and commands),
    and [tables_consistent] its invariant. *)

From Stdlib Require Import ZArith QArith String List Lia.
From S2P Require Import Prelude PyStr PyDict Volume Receiver.
Import ListNotations.
Import Receiver PyStr PyDict Volume.

Module Marantz.

Local Open Scope py_scope.

(** [STATE_ON] / [STATE_OFF] of [homeassistant.const]. *)
Inductive media_state : Type := STATE_ON | STATE_OFF.

(** An instance attribute that may not have been assigned yet. *)
Inductive attr (A : Type) : Type :=
| Missing
| Present (a : A).
Arguments Missing {A}.
Arguments Present {A} a.

Record entity : Type := mk_entity {
  _name : string;
  _min_volume : Z;
  _max_volume : Z;
  _source_dict : list (string * string);
  _sound_mode_dict : list (string * string);
  _reverse_mapping : list (string * string);
  _reverse_mapping_sound_mode : list (string * string);
  _unique_id : string;
  _volume : option Q;
  _state : option media_state;
  _mute : option bool;
  _source : option string;
  _sound_mode : attr (option string)
}.

(** [__init__(self, name, marantz_receiver, min_volume, max_volume,
    source_dict, sound_mode_dict, unique_id)]; the receiver goes to the
    world. *)
Definition __init__ (name : string) (min_volume max_volume : Z)
    (source_dict sound_mode_dict : list (string * string)) (unique_id : string) : entity :=
  {| _name := name;
     _min_volume := min_volume;
     _max_volume := max_volume;
     _source_dict := source_dict;
     _sound_mode_dict := sound_mode_dict;
     _reverse_mapping := dict_reverse (fun key => key) source_dict;
     _reverse_mapping_sound_mode := dict_reverse zero_prefix sound_mode_dict;
     _unique_id := unique_id;
     _volume := None; _state := None; _mute := None; _source := None;
     _sound_mode := Missing |}.

(** Assignments [self._state = ...] and the like. *)
Definition set_state (s : media_state) (e : entity) : entity :=
  {| _name := _name e; _min_volume := _min_volume e; _max_volume := _max_volume e;
     _source_dict := _source_dict e; _sound_mode_dict := _sound_mode_dict e;
     _reverse_mapping := _reverse_mapping e;
     _reverse_mapping_sound_mode := _reverse_mapping_sound_mode e;
     _unique_id := _unique_id e; _volume := _volume e; _state := Some s;
     _mute := _mute e; _source := _source e; _sound_mode := _sound_mode e |}.

Definition set_mute (m : bool) (e : entity) : entity :=
  {| _name := _name e; _min_volume := _min_volume e; _max_volume := _max_volume e;
     _source_dict := _source_dict e; _sound_mode_dict := _sound_mode_dict e;
     _reverse_mapping := _reverse_mapping e;
     _reverse_mapping_sound_mode := _reverse_mapping_sound_mode e;
     _unique_id := _unique_id e; _volume := _volume e; _state := _state e;
     _mute := Some m; _source := _source e; _sound_mode := _sound_mode e |}.

Definition set_volume (v : Q) (e : entity) : entity :=
  {| _name := _name e; _min_volume := _min_volume e; _max_volume := _max_volume e;
     _source_dict := _source_dict e; _sound_mode_dict := _sound_mode_dict e;
     _reverse_mapping := _reverse_mapping e;
     _reverse_mapping_sound_mode := _reverse_mapping_sound_mode e;
     _unique_id := _unique_id e; _volume := Some v; _state := _state e;
     _mute := _mute e; _source := _source e; _sound_mode := _sound_mode e |}.

Definition set_source (s : option string) (e : entity) : entity :=
  {| _name := _name e; _min_volume := _min_volume e; _max_volume := _max_volume e;
     _source_dict := _source_dict e; _sound_mode_dict := _sound_mode_dict e;
     _reverse_mapping := _reverse_mapping e;
     _reverse_mapping_sound_mode := _reverse_mapping_sound_mode e;
     _unique_id := _unique_id e; _volume := _volume e; _state := _state e;
     _mute := _mute e; _source := s; _sound_mode := _sound_mode e |}.

Definition set_sound_mode (s : option string) (e : entity) : entity :=
  {| _name := _name e; _min_volume := _min_volume e; _max_volume := _max_volume e;
     _source_dict := _source_dict e; _sound_mode_dict := _sound_mode_dict e;
     _reverse_mapping := _reverse_mapping e;
     _reverse_mapping_sound_mode := _reverse_mapping_sound_mode e;
     _unique_id := _unique_id e; _volume := _volume e; _state := _state e;
     _mute := _mute e; _source := _source e; _sound_mode := Present s |}.

(** [d.get(v)] for a dict with [str] keys and any Python value [v]. *)
Definition dict_get_py (d : list (string * string)) (v : pyval) : option string :=
  match v with PyStr s => dict_get d s | _ => None end.

Section Methods.
Context {R : Type} `{Receiver R}.

Abbreviation M := (PyM (world entity R)).

(** [update(self)] (lines 110-129). *)
Definition update : M unit :=
  power <- invoke (query main_power) ;;
  modify_ent (set_state (if py_eq_str power "1" then STATE_OFF else STATE_ON)) ;;
  mute <- invoke (query main_mute) ;;
  modify_ent (set_mute (if py_eq_str mute "1" then false else true)) ;;
  volume_result <- invoke (query main_volume) ;;
  (if py_not_none volume_result
   then e <- gets ent ;;
        v <- lift (calc_volume (_min_volume e) (_max_volume e) volume_result) ;;
        modify_ent (set_volume v)
   else ret tt) ;;
  source <- invoke (query main_source) ;;
  modify_ent (fun e => set_source (dict_get_py (_source_dict e) source) e) ;;
  sound_mode <- invoke (query main_sound_mode) ;;
  modify_ent (fun e => set_sound_mode (dict_get_py (_sound_mode_dict e) sound_mode) e).

(** [turn_off], [turn_on], [volume_up], [volume_down] (lines 146-160). *)
Definition turn_off : M unit := invoke (write main_power (PyStr "3")) ;; ret tt.
Definition turn_on : M unit := invoke (write main_power (PyStr "2")) ;; ret tt.
Definition volume_up : M unit := invoke (write main_volume (PyStr "1")) ;; ret tt.
Definition volume_down : M unit := invoke (write main_volume (PyStr "2")) ;; ret tt.

(** [set_volume_level(self, volume)] (lines 162-165). *)
Definition set_volume_level (volume : Q) : M unit :=
  e <- gets ent ;;
  invoke (write main_volume
            (PyStr (vol_calc (calc_db (_min_volume e) (_max_volume e) volume)))) ;;
  ret tt.

(** [select_source(self, source)] (lines 167-169). *)
Definition select_source (source : string) : M unit :=
  e <- gets ent ;;
  invoke (write main_source (py_of_option (dict_get (_reverse_mapping e) source))) ;;
  ret tt.

(** [select_sound_mode(self, sound_mode)] (lines 171-173). *)
Definition select_sound_mode (sound_mode : string) : M unit :=
  e <- gets ent ;;
  invoke (write main_sound_mode
            (py_of_option (dict_get (_reverse_mapping_sound_mode e) sound_mode))) ;;
  ret tt.

(** [mute_volume(self, mute)] (lines 175-180). *)
Definition mute_volume (mute : bool) : M unit :=
  if mute then invoke (write main_mute (PyStr "2")) ;; ret tt
  else invoke (write main_mute (PyStr "1")) ;; ret tt.

End Methods.

(** ** Properties (pure reads of the cache) *)

Definition name (e : entity) : string := _name e.
Definition state (e : entity) : option media_state := _state e.
Definition volume_level (e : entity) : option Q := _volume e.
Definition is_volume_muted (e : entity) : option bool := _mute e.
Definition source (e : entity) : option string := _source e.
Definition sound_mode (e : entity) : result (option string) :=
  match _sound_mode e with
  | Missing => Raise (AttributeError "_sound_mode")
  | Present s => Ok s
  end.
Definition source_list (e : entity) : list string := sorted_keys (_reverse_mapping e).
Definition sound_mode_list (e : entity) : list string :=
  sorted_keys (_reverse_mapping_sound_mode e).
Definition unique_id (e : entity) : string := _unique_id e.

(** ** Commands *)

(** The command calls the host makes on the entity. *)
Inductive command_op : Type :=
| TurnOff
| TurnOn
| VolumeUp
| VolumeDown
| SetVolumeLevel (volume : Q)
| SelectSource (source : string)
| SelectSoundMode (sound_mode : string)
| MuteVolume (mute : bool).

Definition run_command {R} `{Receiver R} (c : command_op) : PyM (world entity R) unit :=
  match c with
  | TurnOff => turn_off
  | TurnOn => turn_on
  | VolumeUp => volume_up
  | VolumeDown => volume_down
  | SetVolumeLevel v => set_volume_level v
  | SelectSource s => select_source s
  | SelectSoundMode s => select_sound_mode s
  | MuteVolume b => mute_volume b
  end.

(** The write call of each command, as the table of the specification
    lists it (power ['2'] on, ['3'] off; volume ['1'] up, ['2'] down;
    mute ['2'] on, ['1'] off; the formatted level; the looked-up codes). *)
Definition command_call (e : entity) (c : command_op) : call :=
  match c with
  | TurnOn => write main_power (PyStr "2")
  | TurnOff => write main_power (PyStr "3")
  | VolumeUp => write main_volume (PyStr "1")
  | VolumeDown => write main_volume (PyStr "2")
  | SetVolumeLevel f =>
      write main_volume (PyStr (vol_calc (calc_db (_min_volume e) (_max_volume e) f)))
  | SelectSource s => write main_source (py_of_option (dict_get (_reverse_mapping e) s))
  | SelectSoundMode s =>
      write main_sound_mode (py_of_option (dict_get (_reverse_mapping_sound_mode e) s))
  | MuteVolume b => write main_mute (PyStr (if b then "2" else "1"))
  end.

(** The five queries of [update], in the order of the source. *)
Definition update_queries : list call :=
  [query main_power; query main_mute; query main_volume; query main_source;
   query main_sound_mode].

(** The attributes fixed by [__init__]. *)
Definition config_of (e : entity) :=
  (_name e, _min_volume e, _max_volume e, _source_dict e, _sound_mode_dict e,
   _reverse_mapping e, _reverse_mapping_sound_mode e, _unique_id e).

(** The volume reply is absent, or [calc_volume] accepts it. *)
Definition volume_reply_ok (e : entity) (v : pyval) : Prop :=
  py_not_none v = true -> exists q, calc_volume (_min_volume e) (_max_volume e) v = Ok q.

(** The method [m], run on [w], makes exactly the one call [c], returns
    what the receiver returns (its value dropped) and leaves the entity's
    attributes as they were. *)
Definition sends {R} `{Receiver R} (m : PyM (world entity R) unit) (w : world entity R)
    (c : call) : Prop :=
  m w = (result_map (fun _ => tt) (fst (receive (dev w) c)),
         mk_world (ent w) (snd (receive (dev w) c)) (log w ++ [c])).

(** The reverse tables are those [__init__] computes from the two dicts
    (lines 74-77). *)
Definition tables_consistent (e : entity) : Prop :=
  _reverse_mapping e = dict_reverse (fun key => key) (_source_dict e) /\
  _reverse_mapping_sound_mode e = dict_reverse zero_prefix (_sound_mode_dict e).

(** The worlds the host can produce: a fresh entity, then any sequence of
    [update] calls (returning normally or not) and command calls. *)
Inductive reachable {R} `{Receiver R} : world entity R -> Prop :=
| reach_init nm mn mx sd smd uid (r : R) :
    reachable (mk_world (__init__ nm mn mx sd smd uid) r [])
| reach_update w : reachable w -> reachable (snd (update w))
| reach_command c w : reachable w -> reachable (snd (run_command c w)).

(** Fixtures of the witnesses: an entity configured with two sources and
    one sound mode, driven by the [Script] receiver. *)
Module Fixtures.
Local Open Scope string_scope.

Definition demo : entity :=
  __init__ "Marantz Receiver" (-71) (-1) [("1", "CD"); ("2", "Tuner")] [("1", "Stereo")] "".

Definition demo_world (rs : list (result pyval)) : world entity (list (result pyval)) :=
  mk_world demo rs [].

Definition demo_flat : world entity (list (result pyval)) :=
  mk_world (__init__ "Marantz Receiver" (-10) (-10) [] [] "")
           [Ok (PyStr "0"); Ok (PyStr "0"); Ok (PyInt (-10))] [].

(** The demo entity after one [update] that returned normally. *)
Definition demo_polled : world entity (list (result pyval)) :=
  snd (update (demo_world [Ok (PyStr "0"); Ok (PyStr "1"); Ok PyNone; Ok (PyStr "1");
                           Ok (PyStr "1")])).

End Fixtures.
Import Fixtures.

(** ** Running the methods

    [run_py] unfolds a method into its sequence of calls and assignments
    and splits on every answer of the receiver that is not known from a
    hypothesis, on the [None] test of the volume reply and on the outcome
    of [calc_volume]. *)
Ltac run_py :=
  unfold update, turn_off, turn_on, volume_up, volume_down, set_volume_level, select_source,
    select_sound_mode, mute_volume, modify_ent in *;
  unfold bind, ret, gets, modify, lift, invoke in *;
  repeat (cbn [ent dev log fst snd set_state set_mute set_volume set_source set_sound_mode
               _name _min_volume _max_volume _source_dict _sound_mode_dict _reverse_mapping
               _reverse_mapping_sound_mode _unique_id _volume _state _mute _source
               _sound_mode] in *;
          match goal with
          | Hr : receive ?d ?c = _ |- context [receive ?d ?c] => rewrite Hr
          | |- context [receive ?d ?c] => destruct (receive d c) as [[?|?] ?]
          | Hc : calc_volume ?a ?b ?v = _ |- context [calc_volume ?a ?b ?v] => rewrite Hc
          | |- context [calc_volume ?a ?b ?v] =>
              first [progress cbn [calc_volume py_sub_int] | destruct (calc_volume a b v)]
          | Hn : py_not_none ?v = _ |- context [py_not_none ?v] => rewrite Hn
          | |- context [py_not_none ?v] =>
              first [progress cbn [py_not_none] | destruct (py_not_none v)]
          end).

Section Update.
Context {R : Type} `{Receiver R}.

Lemma volume_reply_ok_cases e v :
  volume_reply_ok e v ->
  py_not_none v = false \/
  exists q, py_not_none v = true /\ calc_volume (_min_volume e) (_max_volume e) v = Ok q.
Proof.
  unfold volume_reply_ok. destruct (py_not_none v) eqn:Hv; [|auto].
  intros Hok. destruct (Hok eq_refl) as [q Hq]. eauto.
Qed.

Ltac run_update :=
  unpack_answers;
  repeat match goal with
  | Hv : volume_reply_ok _ _ |- _ =>
      let Hn := fresh "Hn" in let Hq := fresh "Hq" in let q := fresh "q" in
      destruct (volume_reply_ok_cases _ _ Hv) as [Hn|[q [Hn Hq]]]; clear Hv
  end;
  run_py.

(** (C1) [update] sets the power state from the first reply: ['1'] is OFF,
    every other reply, including [None] and the int [1], is ON. *)
Theorem update_state (w : world entity R) p r1 :
  receive (dev w) (query main_power) = (Ok p, r1) ->
  _state (ent (snd (update w))) = Some (if py_eq_str p "1" then STATE_OFF else STATE_ON).
Proof. intros Hp. run_py; reflexivity. Qed.

(** (C2) The mute flag is the negation of "the reply is ['1']". *)
Theorem update_mute (w : world entity R) p m r2 :
  answers (dev w) [query main_power; query main_mute] [p; m] r2 ->
  _mute (ent (snd (update w))) = Some (negb (py_eq_str m "1")).
Proof. intros Ha. run_update; destruct (py_eq_str m "1"); reflexivity. Qed.

(** (C4) An absent volume reply leaves the cached volume as it was. *)
Theorem update_volume_absent (w : world entity R) p m r3 :
  answers (dev w) [query main_power; query main_mute; query main_volume] [p; m; PyNone] r3 ->
  _volume (ent (snd (update w))) = _volume (ent w).
Proof. intros Ha. run_update; reflexivity. Qed.

(** (C3) An int volume reply [d] is stored as [|min - d| / |min - max|]. *)
Theorem update_volume_int (w : world entity R) p m d r3 :
  _min_volume (ent w) <> _max_volume (ent w) ->
  answers (dev w) [query main_power; query main_mute; query main_volume] [p; m; PyInt d] r3 ->
  _volume (ent (snd (update w))) =
    Some (inject_Z (Z.abs (_min_volume (ent w) - d)) /
          inject_Z (Z.abs (_min_volume (ent w) - _max_volume (ent w)))).
Proof.
  intros Hne Ha. pose proof (calc_volume_int _ _ d Hne) as Hq. run_update; reflexivity.
Qed.

(** (C29) When the receiver reports a decibel value between the two
    configured bounds, the [volume_level] the host reads afterwards is a
    fraction in [0,1], as the host requires of a media player. *)
Theorem update_volume_level_range (w : world entity R) p m d r3 :
  _min_volume (ent w) <> _max_volume (ent w) ->
  (Z.min (_min_volume (ent w)) (_max_volume (ent w)) <= d <=
   Z.max (_min_volume (ent w)) (_max_volume (ent w)))%Z ->
  answers (dev w) [query main_power; query main_mute; query main_volume] [p; m; PyInt d] r3 ->
  exists v, volume_level (ent (snd (update w))) = Some v /\ 0 <= v <= 1.
Proof.
  intros Hne Hd Ha. pose proof (calc_volume_int _ _ d Hne) as Hq. unfold volume_level.
  run_update; eexists;
    (split; [reflexivity | apply Qdiv_unit_interval;
             [apply inject_Z_abs_nonneg | rewrite <- Zle_Qle; lia | apply inject_Z_abs_pos; lia]]).
Qed.

(** (C8) With equal volume bounds an int volume reply raises
    [ZeroDivisionError] after power and mute were already overwritten, and
    source and sound mode keep their old values: [update] is not atomic. *)
Theorem update_zero_division (w : world entity R) p m d r3 :
  _min_volume (ent w) = _max_volume (ent w) ->
  answers (dev w) [query main_power; query main_mute; query main_volume] [p; m; PyInt d] r3 ->
  fst (update w) = Raise ZeroDivisionError /\
  _state (ent (snd (update w))) = Some (if py_eq_str p "1" then STATE_OFF else STATE_ON) /\
  _mute (ent (snd (update w))) = Some (negb (py_eq_str m "1")) /\
  _source (ent (snd (update w))) = _source (ent w) /\
  _sound_mode (ent (snd (update w))) = _sound_mode (ent w).
Proof.
  intros Heq Ha.
  assert (Hq : calc_volume (_min_volume (ent w)) (_max_volume (ent w)) (PyInt d) =
               Raise ZeroDivisionError).
  { unfold calc_volume. simpl. rewrite Heq, Z.sub_diag. reflexivity. }
  run_update; destruct (py_eq_str m "1"); repeat split.
Qed.

(** (C9) A [str] volume reply raises [TypeError] in [calc_volume]. *)
Theorem update_volume_str (w : world entity R) p m s r3 :
  answers (dev w) [query main_power; query main_mute; query main_volume] [p; m; PyStr s] r3 ->
  fst (update w) = Raise TypeError.
Proof. intros Ha. run_update. reflexivity. Qed.

(** (C10) The source is the configured name of the reply's code, [None] for
    an unknown code or a reply that is not a [str]. *)
Theorem update_source (w : world entity R) p m v s r4 :
  volume_reply_ok (ent w) v ->
  answers (dev w) [query main_power; query main_mute; query main_volume; query main_source]
    [p; m; v; s] r4 ->
  _source (ent (snd (update w))) = dict_get_py (_source_dict (ent w)) s.
Proof. intros Hv Ha. run_update; reflexivity. Qed.

(** (C5) When the five queries are answered and the volume reply is
    accepted, [update] returns normally, has made exactly the five queries
    in the order power, mute, volume, source, sound mode, and the sound
    mode attribute then exists with the configured name of the reply. *)
Theorem update_success (w : world entity R) p m v s sm r5 :
  volume_reply_ok (ent w) v ->
  answers (dev w) update_queries [p; m; v; s; sm] r5 ->
  fst (update w) = Ok tt /\
  log (snd (update w)) = log w ++ update_queries /\
  dev (snd (update w)) = r5 /\
  sound_mode (ent (snd (update w))) = Ok (dict_get_py (_sound_mode_dict (ent w)) sm).
Proof.
  intros Hv Ha. unfold update_queries in Ha.
  run_update; rewrite <- ?app_assoc; repeat split.
Qed.

(** (C6) Whatever the receiver answers, [update] has issued a prefix of the
    five queries, in order, and all five when it returns normally. *)
Theorem update_log (w : world entity R) :
  exists n, log (snd (update w)) = log w ++ firstn n update_queries /\
            (fst (update w) = Ok tt -> n = 5%nat).
Proof.
  unfold update_queries.
  run_py; rewrite <- ?app_assoc;
    first [ exists 5%nat; split; [reflexivity|intros _; reflexivity]
          | exists 4%nat; split; [reflexivity|discriminate]
          | exists 3%nat; split; [reflexivity|discriminate]
          | exists 2%nat; split; [reflexivity|discriminate]
          | exists 1%nat; split; [reflexivity|discriminate] ].
Qed.

Lemma update_keeps_config (w : world entity R) :
  config_of (ent (snd (update w))) = config_of (ent w).
Proof. run_py; reflexivity. Qed.

(** (C23) [update] never changes the attributes set by [__init__]. *)
Theorem update_config (w : world entity R) :
  config_of (ent (snd (update w))) = config_of (ent w).
Proof. exact (update_keeps_config w). Qed.

End Update.

Section Commands.
Context {R : Type} `{Receiver R}.

Lemma run_command_sends (c : command_op) (w : world entity R) :
  sends (run_command c) w (command_call (ent w) c).
Proof.
  unfold sends. destruct c as [| | | |v|src|sm|[|]]; cbn [run_command command_call]; run_py;
    reflexivity.
Qed.

(** (C7) Every command makes exactly its one write call, returns what the
    receiver returns (its value dropped), and leaves the entity's
    attributes untouched: only [update] writes the cache. *)
Theorem run_command_spec (c : command_op) (w : world entity R) :
  run_command c w =
    (result_map (fun _ => tt) (fst (receive (dev w) (command_call (ent w) c))),
     mk_world (ent w) (snd (receive (dev w) (command_call (ent w) c)))
              (log w ++ [command_call (ent w) c])).
Proof. exact (run_command_sends c w). Qed.

Lemma run_command_ent (c : command_op) (w : world entity R) :
  ent (snd (run_command c w)) = ent w.
Proof. rewrite (run_command_sends c w). reflexivity. Qed.

Lemma set_volume_level_sends f (w : world entity R) :
  sends (set_volume_level f) w
    (write main_volume (PyStr (vol_calc (calc_db (_min_volume (ent w)) (_max_volume (ent w)) f)))).
Proof. exact (run_command_sends (SetVolumeLevel f) w). Qed.

Lemma select_source_sends x (w : world entity R) :
  sends (select_source x) w (write main_source (py_of_option (dict_get (_reverse_mapping (ent w)) x))).
Proof. exact (run_command_sends (SelectSource x) w). Qed.

Lemma select_sound_mode_sends x (w : world entity R) :
  sends (select_sound_mode x) w
    (write main_sound_mode (py_of_option (dict_get (_reverse_mapping_sound_mode (ent w)) x))).
Proof. exact (run_command_sends (SelectSoundMode x) w). Qed.

End Commands.

(** ** The entity built by [__init__] *)

Section Init.
Variables (nm : string) (mn mx : Z) (sd smd : list (string * string)) (uid : string).
Let e0 := __init__ nm mn mx sd smd uid.

Lemma source_list_In x : In x (source_list e0) <-> In x (dict_values sd).
Proof. unfold source_list. rewrite sorted_keys_In. apply dict_reverse_keys. Qed.

Lemma sound_mode_list_In x : In x (sound_mode_list e0) <-> In x (dict_values smd).
Proof. unfold sound_mode_list. rewrite sorted_keys_In. apply dict_reverse_keys. Qed.

(** (C16) The source list holds exactly the configured display names, in
    strictly increasing order (duplicates collapsed). *)
Theorem source_list_spec :
  Sorted.StronglySorted str_lt (source_list e0) /\
  (forall x, In x (source_list e0) <-> In x (dict_values sd)).
Proof. split; [apply sorted_keys_sorted, dict_reverse_wf | exact source_list_In]. Qed.

(** The same for the sound-mode list. *)
Lemma sound_mode_list_spec :
  Sorted.StronglySorted str_lt (sound_mode_list e0) /\
  (forall x, In x (sound_mode_list e0) <-> In x (dict_values smd)).
Proof. split; [apply sorted_keys_sorted, dict_reverse_wf | exact sound_mode_list_In]. Qed.

Lemma reverse_get_listed {W} (g : string -> W) (d : list (string * string)) (x : string) :
  In x (dict_values d) -> exists k, dict_get (dict_reverse g d) x = Some (g k) /\ In (k, x) d.
Proof.
  intros Hx. destruct (dict_get (dict_reverse g d) x) as [w|] eqn:E.
  - destruct (dict_reverse_sound g d x w E) as [k [-> Hk]]. eauto.
  - apply dict_get_None in E. rewrite dict_reverse_keys in E. contradiction.
Qed.

End Init.

(** ** Reachable worlds *)

Lemma tables_consistent_config e e' :
  config_of e' = config_of e -> tables_consistent e -> tables_consistent e'.
Proof.
  unfold config_of, tables_consistent. intros Heq [Hs Hm].
  injection Heq; intros; split; congruence.
Qed.

Lemma source_list_tables e x :
  tables_consistent e -> In x (source_list e) <-> In x (dict_values (_source_dict e)).
Proof.
  intros [Hs _]. unfold source_list. rewrite Hs, sorted_keys_In. apply dict_reverse_keys.
Qed.

Lemma sound_mode_list_tables e x :
  tables_consistent e -> In x (sound_mode_list e) <-> In x (dict_values (_sound_mode_dict e)).
Proof.
  intros [_ Hm]. unfold sound_mode_list. rewrite Hm, sorted_keys_In. apply dict_reverse_keys.
Qed.

Section Reachable.
Context {R : Type} `{Receiver R}.

Lemma reachable_tables (w : world entity R) : reachable w -> tables_consistent (ent w).
Proof.
  induction 1 as [nm mn mx sd smd uid r|w _ IH|c w _ IH].
  - split; reflexivity.
  - exact (tables_consistent_config _ _ (update_keeps_config w) IH).
  - rewrite run_command_ent. exact IH.
Qed.

(** (C20) In every world the host can reach, the reverse tables are still
    those [__init__] built from the two dicts, so [source_list] and
    [sound_mode_list] list exactly the configured display names: neither
    [update] nor any command changes them. *)
Theorem reachable_lists (w : world entity R) :
  reachable w ->
  tables_consistent (ent w) /\
  (forall x, In x (source_list (ent w)) <-> In x (dict_values (_source_dict (ent w)))) /\
  (forall x, In x (sound_mode_list (ent w)) <-> In x (dict_values (_sound_mode_dict (ent w)))).
Proof.
  intros Hr. pose proof (reachable_tables w Hr) as Ht.
  split; [exact Ht | split; intros x; [apply source_list_tables | apply sound_mode_list_tables]];
    exact Ht.
Qed.

Lemma select_source_reachable x (w : world entity R) :
  reachable w ->
  sends (select_source x) w
    (write main_source (py_of_option (dict_get (dict_reverse (fun key => key) (_source_dict (ent w))) x))).
Proof.
  intros Hr. destruct (reachable_tables w Hr) as [Hs _].
  pose proof (select_source_sends x w) as Hc. rewrite Hs in Hc. exact Hc.
Qed.

Lemma select_sound_mode_reachable x (w : world entity R) :
  reachable w ->
  sends (select_sound_mode x) w
    (write main_sound_mode
       (py_of_option (dict_get (dict_reverse zero_prefix (_sound_mode_dict (ent w))) x))).
Proof.
  intros Hr. destruct (reachable_tables w Hr) as [_ Hm].
  pose proof (select_sound_mode_sends x w) as Hc. rewrite Hm in Hc. exact Hc.
Qed.

End Reachable.

(** ** Commands that look up a code or compute a level *)

Section Select.
Context {R : Type} `{Receiver R}.

(** (C14) In a reachable world with a well-formed source dict, selecting a
    listed source makes the one call [main_source(':', k)] for a
    configured code [k] whose configured name is that source, so the next
    [update] reads the code back as the same name. *)
Theorem select_source_listed (w : world entity R) x :
  reachable w -> dict_wf (_source_dict (ent w)) -> In x (source_list (ent w)) ->
  exists k, sends (select_source x) w (write main_source (PyStr k)) /\
            dict_get_py (_source_dict (ent w)) (PyStr k) = Some x.
Proof.
  intros Hr Hwf Hx. pose proof (select_source_reachable x w Hr) as Hc.
  rewrite (source_list_tables _ _ (reachable_tables w Hr)) in Hx.
  destruct (reverse_get_listed (fun key => key) _ x Hx) as [k [Hget Hin]].
  rewrite Hget in Hc. exists k. split; [exact Hc | exact (dict_wf_get _ _ _ Hwf Hin)].
Qed.

(** (C15) In a reachable world, selecting a name that is not a configured
    source makes the one call [main_source(':', None)]. *)
Theorem select_source_unlisted (w : world entity R) x :
  reachable w -> ~ In x (source_list (ent w)) ->
  sends (select_source x) w (write main_source PyNone).
Proof.
  intros Hr Hx. pose proof (select_source_reachable x w Hr) as Hc.
  rewrite (source_list_tables _ _ (reachable_tables w Hr)) in Hx.
  assert (Hn : dict_get (dict_reverse (fun key => key) (_source_dict (ent w))) x = None)
    by (apply dict_get_None; rewrite dict_reverse_keys; exact Hx).
  rewrite Hn in Hc. exact Hc.
Qed.

(** (C25) In a reachable world with a well-formed sound-mode dict, selecting
    a listed sound mode makes the one call [main_sound_mode(':', '0' + k)]
    for a configured key [k] of that sound mode. *)
Theorem select_sound_mode_listed (w : world entity R) x :
  reachable w -> dict_wf (_sound_mode_dict (ent w)) -> In x (sound_mode_list (ent w)) ->
  exists k, sends (select_sound_mode x) w (write main_sound_mode (PyStr (zero_prefix k))) /\
            dict_get (_sound_mode_dict (ent w)) k = Some x.
Proof.
  intros Hr Hwf Hx. pose proof (select_sound_mode_reachable x w Hr) as Hc.
  rewrite (sound_mode_list_tables _ _ (reachable_tables w Hr)) in Hx.
  destruct (reverse_get_listed zero_prefix _ x Hx) as [k [Hget Hin]].
  rewrite Hget in Hc. exists k. split; [exact Hc | exact (dict_wf_get _ _ _ Hwf Hin)].
Qed.

(** (C24) Two sources with the same display name: [select_source] sends the
    code configured last, so the earlier code can never be selected. *)
Theorem select_source_last (w : world entity R) d1 k x d2 :
  reachable w -> _source_dict (ent w) = d1 ++ (k, x) :: d2 -> ~ In x (dict_values d2) ->
  sends (select_source x) w (write main_source (PyStr k)).
Proof.
  intros Hr Hd Hx. pose proof (select_source_reachable x w Hr) as Hc.
  rewrite Hd, (dict_reverse_last (fun key => key) d1 k x d2 Hx) in Hc. exact Hc.
Qed.

(** (C13) For [min <= max] and a level in [0,1], [set_volume_level] makes
    the one call [main_volume(':', '0' + str(db))] for a [db] in
    [[min, max]], and the code determines [db]. *)
Theorem set_volume_level_code (w : world entity R) f :
  (_min_volume (ent w) <= _max_volume (ent w))%Z -> 0 <= f <= 1 ->
  exists db, sends (set_volume_level f) w (write main_volume (PyStr (vol_calc db))) /\
             decode_vol_calc (vol_calc db) = Some db /\
             (_min_volume (ent w) <= db <= _max_volume (ent w))%Z.
Proof.
  intros Hle Hf. exists (calc_db (_min_volume (ent w)) (_max_volume (ent w)) f).
  split; [exact (set_volume_level_sends f w)|]. split; [apply vol_calc_roundtrip|].
  pose proof (calc_db_range (_min_volume (ent w)) (_max_volume (ent w)) f Hf). lia.
Qed.

End Select.

(** (C21) The source list depends only on the set of configured display
    names, not on the order or the codes of the configuration. *)
Theorem source_list_canonical nm mn mx sd smd uid nm' mn' mx' sd' smd' uid' :
  (forall x, In x (dict_values sd) <-> In x (dict_values sd')) ->
  source_list (__init__ nm mn mx sd smd uid) = source_list (__init__ nm' mn' mx' sd' smd' uid').
Proof.
  intros Heq. unfold source_list. cbn [__init__ _reverse_mapping].
  apply sorted_keys_canonical; try apply dict_reverse_wf.
  intros x. rewrite !dict_reverse_keys. apply Heq.
Qed.

Section SoundModeAttr.
Context {R : Type} `{Receiver R}.

(** (C22) [__init__] never assigns [_sound_mode]: reading [sound_mode] on a
    fresh entity raises [AttributeError], and it keeps raising until an
    [update] returns normally; an [update] that returns normally makes it
    readable. *)
Theorem sound_mode_after_update nm mn mx sd smd uid (r : R) l :
  let w := mk_world (__init__ nm mn mx sd smd uid) r l in
  (sound_mode (ent (snd (update w))) = Raise (AttributeError "_sound_mode") <->
   fst (update w) <> Ok tt).
Proof.
  intros w. subst w. run_py; unfold sound_mode; cbn; split; congruence.
Qed.

End SoundModeAttr.

(** ** Witnesses at concrete inputs *)

Local Open Scope string_scope.

Lemma update_state_witness :
  _state (ent (snd (update (demo_world [Ok (PyStr "1")])))) = Some STATE_OFF.
Proof. exact (update_state (demo_world [Ok (PyStr "1")]) (PyStr "1") [] eq_refl). Defined.

Lemma update_mute_witness :
  _mute (ent (snd (update (demo_world [Ok (PyStr "0"); Ok (PyStr "1")])))) = Some false.
Proof.
  apply (update_mute (demo_world [Ok (PyStr "0"); Ok (PyStr "1")]) (PyStr "0") (PyStr "1") []).
  solve_answers.
Defined.

Lemma update_volume_absent_witness :
  _volume (ent (snd (update (demo_world [Ok (PyStr "0"); Ok (PyStr "1"); Ok PyNone])))) = None.
Proof.
  rewrite (update_volume_absent (demo_world [Ok (PyStr "0"); Ok (PyStr "1"); Ok PyNone])
             (PyStr "0") (PyStr "1") []); [reflexivity | solve_answers].
Defined.

Lemma update_volume_int_witness :
  _volume (ent (snd (update (demo_world [Ok (PyStr "0"); Ok (PyStr "1"); Ok (PyInt (-36))])))) =
    Some (inject_Z (Z.abs (-71 - -36)) / inject_Z (Z.abs (-71 - -1))).
Proof.
  apply (update_volume_int (demo_world [Ok (PyStr "0"); Ok (PyStr "1"); Ok (PyInt (-36))])
           (PyStr "0") (PyStr "1") (-36) []); [simpl; lia | solve_answers].
Defined.

Lemma update_zero_division_witness :
  fst (update demo_flat) = Raise ZeroDivisionError /\
  _state (ent (snd (update demo_flat))) = Some STATE_ON /\
  _mute (ent (snd (update demo_flat))) = Some true /\
  _source (ent (snd (update demo_flat))) = None /\
  _sound_mode (ent (snd (update demo_flat))) = Missing.
Proof.
  apply (update_zero_division demo_flat (PyStr "0") (PyStr "0") (-10) []);
    [reflexivity | solve_answers].
Defined.

Lemma update_volume_str_witness :
  fst (update (demo_world [Ok (PyStr "0"); Ok (PyStr "1"); Ok (PyStr "-36")])) = Raise TypeError.
Proof.
  apply (update_volume_str (demo_world [Ok (PyStr "0"); Ok (PyStr "1"); Ok (PyStr "-36")])
           (PyStr "0") (PyStr "1") "-36" []).
  solve_answers.
Defined.

Lemma update_source_witness :
  _source (ent (snd (update (demo_world
    [Ok (PyStr "0"); Ok (PyStr "1"); Ok PyNone; Ok (PyStr "2")])))) = Some "Tuner".
Proof.
  apply (update_source (demo_world [Ok (PyStr "0"); Ok (PyStr "1"); Ok PyNone; Ok (PyStr "2")])
           (PyStr "0") (PyStr "1") PyNone (PyStr "2") []);
    [unfold volume_reply_ok; simpl; discriminate | solve_answers].
Defined.

Lemma update_success_witness :
  let w := demo_world [Ok (PyStr "0"); Ok (PyStr "1"); Ok (PyInt (-36)); Ok (PyStr "1");
                       Ok (PyStr "1")] in
  fst (update w) = Ok tt /\ log (snd (update w)) = (log w ++ update_queries)%list /\
  dev (snd (update w)) = [] /\ sound_mode (ent (snd (update w))) = Ok (Some "Stereo").
Proof.
  intros w. apply (update_success w (PyStr "0") (PyStr "1") (PyInt (-36)) (PyStr "1") (PyStr "1") []).
  - intros _. eexists. reflexivity.
  - solve_answers.
Defined.

Lemma source_list_canonical_witness :
  source_list demo =
  source_list (__init__ "Receiver" (-60) (-10) [("5", "Tuner"); ("7", "CD")] [] "x").
Proof.
  apply (source_list_canonical "Marantz Receiver" (-71) (-1) [("1", "CD"); ("2", "Tuner")]
           [("1", "Stereo")] "" "Receiver" (-60) (-10) [("5", "Tuner"); ("7", "CD")] [] "x").
  intros x. simpl. tauto.
Defined.

Lemma update_volume_level_range_witness :
  exists v, volume_level (ent (snd (update (demo_world
    [Ok (PyStr "0"); Ok (PyStr "1"); Ok (PyInt (-36))])))) = Some v /\ 0 <= v <= 1.
Proof.
  apply (update_volume_level_range (demo_world [Ok (PyStr "0"); Ok (PyStr "1"); Ok (PyInt (-36))])
           (PyStr "0") (PyStr "1") (-36) []); [simpl; lia | simpl; lia | solve_answers].
Defined.

Lemma demo_polled_reachable : reachable demo_polled.
Proof.
  exact (reach_update _ (reach_init "Marantz Receiver" (-71) (-1) [("1", "CD"); ("2", "Tuner")]
           [("1", "Stereo")] "" [Ok (PyStr "0"); Ok (PyStr "1"); Ok PyNone; Ok (PyStr "1");
                                 Ok (PyStr "1")])).
Defined.

Lemma reachable_lists_witness :
  tables_consistent (ent (snd (run_command TurnOn demo_polled))) /\
  (forall x, In x (source_list (ent (snd (run_command TurnOn demo_polled)))) <->
             In x (dict_values (_source_dict (ent (snd (run_command TurnOn demo_polled)))))) /\
  (forall x, In x (sound_mode_list (ent (snd (run_command TurnOn demo_polled)))) <->
             In x (dict_values (_sound_mode_dict (ent (snd (run_command TurnOn demo_polled)))))).
Proof. apply reachable_lists, reach_command, demo_polled_reachable. Defined.

Lemma select_source_listed_witness :
  exists k, sends (select_source "CD") demo_polled (write main_source (PyStr k)) /\
            dict_get_py (_source_dict (ent demo_polled)) (PyStr k) = Some "CD".
Proof.
  apply (select_source_listed demo_polled "CD").
  - exact demo_polled_reachable.
  - apply dict_wfb_sound. vm_compute. reflexivity.
  - vm_compute. auto.
Defined.

Lemma select_source_unlisted_witness :
  sends (select_source "Phono") demo_polled (write main_source PyNone).
Proof.
  apply (select_source_unlisted demo_polled "Phono");
    [exact demo_polled_reachable | vm_compute; intuition discriminate].
Defined.

Lemma select_sound_mode_listed_witness :
  exists k, sends (select_sound_mode "Stereo") demo_polled
              (write main_sound_mode (PyStr (zero_prefix k))) /\
            dict_get (_sound_mode_dict (ent demo_polled)) k = Some "Stereo".
Proof.
  apply (select_sound_mode_listed demo_polled "Stereo").
  - exact demo_polled_reachable.
  - apply dict_wfb_sound. vm_compute. reflexivity.
  - vm_compute. auto.
Defined.

Lemma select_source_last_witness :
  sends (select_source "CD")
    (mk_world (__init__ "Marantz Receiver" (-71) (-1) [("1", "CD"); ("3", "CD")] [] "")
              ([] : list (result pyval)) [])
    (write main_source (PyStr "3")).
Proof.
  apply (select_source_last
           (mk_world (__init__ "Marantz Receiver" (-71) (-1) [("1", "CD"); ("3", "CD")] [] "")
                     ([] : list (result pyval)) [])
           [("1", "CD")] "3" "CD" []);
    [apply reach_init | reflexivity | simpl; tauto].
Defined.

Lemma set_volume_level_code_witness :
  exists db, sends (set_volume_level (1 # 2)) demo_polled (write main_volume (PyStr (vol_calc db))) /\
             decode_vol_calc (vol_calc db) = Some db /\
             (_min_volume (ent demo_polled) <= db <= _max_volume (ent demo_polled))%Z.
Proof.
  apply (set_volume_level_code demo_polled (1 # 2));
    [vm_compute; discriminate | split; vm_compute; discriminate].
Defined.

End Marantz.
