(* ===== verification/Platform.v ===== *)
(** * Platform setup and feature flags (lines 26-28, 48-59, 141-144)

    [setup_platform] builds the vendor client from the configured serial
    port ([MarantzReceiver], a parameter: the vendor's constructor), the
    entity with [__init__], and hands it to the host with
    [update_before_add = True]: the host runs [update] once and adds the
    entity only when that call returns normally (an exception is logged and
    the entity dropped).  The result is the list of entities added, each
    with its world after the first [update].

    [SUPPORT_MARANTZ] is the bitwise or of seven flags of the host's
    [MediaPlayerEntityFeature]; the flag values are the host's. *)

From Stdlib Require Import ZArith String List Lia.
From S2P Require Import Prelude PyStr PyDict Volume Config Receiver Marantz.
Import ListNotations Receiver Config Marantz.

Module Platform.

(** The flag values of [homeassistant.components.media_player.MediaPlayerEntityFeature]. *)
Module MediaPlayerEntityFeature.
Definition PAUSE : Z := 1.
Definition SEEK : Z := 2.
Definition VOLUME_SET : Z := 4.
Definition VOLUME_MUTE : Z := 8.
Definition PREVIOUS_TRACK : Z := 16.
Definition NEXT_TRACK : Z := 32.
Definition TURN_ON : Z := 128.
Definition TURN_OFF : Z := 256.
Definition PLAY_MEDIA : Z := 512.
Definition VOLUME_STEP : Z := 1024.
Definition SELECT_SOURCE : Z := 2048.
Definition STOP : Z := 4096.
Definition CLEAR_PLAYLIST : Z := 8192.
Definition PLAY : Z := 16384.
Definition SHUFFLE_SET : Z := 32768.
Definition SELECT_SOUND_MODE : Z := 65536.
End MediaPlayerEntityFeature.
Import MediaPlayerEntityFeature.

(** [SUPPORT_MARANTZ] (lines 26-28), or-ed left to right as written. *)
Definition SUPPORT_MARANTZ : Z :=
  Z.lor (Z.lor (Z.lor (Z.lor (Z.lor (Z.lor VOLUME_SET VOLUME_MUTE) TURN_ON) TURN_OFF)
                      VOLUME_STEP) SELECT_SOURCE) SELECT_SOUND_MODE.

(** The property [supported_features] (lines 141-144). *)
Definition supported_features (e : entity) : Z := SUPPORT_MARANTZ.

(** [setup_platform(hass, config, add_devices)] (lines 48-59) with the
    host's [add_devices([...], True)]. *)
Definition setup_platform {R} `{Receiver R} (MarantzReceiver : string -> R) (config : config)
    : list (world entity R) :=
  let entity := __init__ (Config.name config) (min_volume config) (max_volume config)
                         (sources config) (soundmode config) (Config.unique_id config) in
  match update (mk_world entity (MarantzReceiver (serial_port config)) []) with
  | (Ok _, w) => [w]
  | (Raise _, _) => []
  end.

(** Fixtures of the witnesses. *)
Module Fixtures.
Local Open Scope string_scope.

Definition demo_config : config :=
  mk_config "/dev/ttyUSB0" "Marantz Receiver" (-71) (-1) [("1", "CD")] [("1", "Stereo")] "".

Definition demo_client (port : string) : list (result pyval) :=
  [Ok (PyStr "0"); Ok (PyStr "1"); Ok (PyInt (-36)); Ok (PyStr "1"); Ok (PyStr "1")].

Definition demo_added : world entity (list (result pyval)) :=
  snd (update (mk_world (__init__ "Marantz Receiver" (-71) (-1) [("1", "CD")] [("1", "Stereo")] "")
                        (demo_client "/dev/ttyUSB0") [])).

End Fixtures.
Import Fixtures.

(** ** Properties *)

Section Setup.
Context {R : Type} `{Receiver R} (MarantzReceiver : string -> R).

(** (C17) An entity the platform adds carries the validated configuration,
    has sent exactly the five queries of one [update] to the client built
    from the configured serial port, and has a readable sound mode. *)
Theorem setup_platform_added cfg w :
  In w (setup_platform MarantzReceiver cfg) ->
  config_of (ent w) = (Config.name cfg, min_volume cfg, max_volume cfg, sources cfg,
                       soundmode cfg, PyDict.dict_reverse (fun key => key) (sources cfg),
                       PyDict.dict_reverse PyStr.zero_prefix (soundmode cfg),
                       Config.unique_id cfg) /\
  log w = update_queries /\
  exists s, sound_mode (ent w) = Ok s.
Proof.
  unfold setup_platform, update_queries. run_py; intros Hin; simpl in Hin;
    try contradiction; destruct Hin as [<-|[]]; cbn; eauto.
Qed.

(** (C34) When the client raises on the first query, the platform adds no
    entity. *)
Theorem setup_platform_power_error cfg e r :
  receive (MarantzReceiver (serial_port cfg)) (query main_power) = (Raise e, r) ->
  setup_platform MarantzReceiver cfg = [].
Proof. intros He. unfold setup_platform. run_py. reflexivity. Qed.

End Setup.

(** ** Witnesses at concrete inputs *)

Local Open Scope string_scope.

Lemma setup_platform_added_witness :
  In demo_added (setup_platform demo_client demo_config) /\
  log demo_added = update_queries /\ exists s, sound_mode (ent demo_added) = Ok s.
Proof.
  assert (Hin : In demo_added (setup_platform demo_client demo_config)) by (left; reflexivity).
  destruct (setup_platform_added demo_client demo_config demo_added Hin) as (_ & Hl & Hs).
  split; [exact Hin | split; assumption].
Defined.

Lemma setup_platform_power_error_witness :
  setup_platform (fun _ => [Raise (ReceiverError "port closed")]) demo_config = [].
Proof.
  apply (setup_platform_power_error (fun _ => [Raise (ReceiverError "port closed")]) demo_config
           (ReceiverError "port closed") []).
  reflexivity.
Defined.

End Platform.
